(** * ZaraLive transcript logger: a shallow embedding of [transcript-logger.js]

    The development follows the class [TranscriptLogger]: the record builder
    [prepareLogEntry], the push path [logTranscript] / [sendToLoki] /
    [updateMetrics] / [logTranscripts], the query path [searchTranscripts] and
    the statistics [getTranscriptStats].

    Conventions of the embedding.
    - A JavaScript Number that holds an integer is the integer itself ([Z]);
      every arithmetic operation rounds its exact result to the nearest
      binary64 value ([js_round]), as the engine does.
    - A string is kept as the bytes of its UTF-8 encoding, which is what
      [encodeURIComponent] escapes; [String.prototype.length] counts UTF-16
      code units and is computed from those bytes by [utf16_length].
    - Logger instances live in a store indexed by object identity; the
      network, the wall clock and the store are threaded through a state and
      exception monad.  What the methods print on the console is not part of
      that state. *)

From Stdlib Require Import ZArith String Ascii List Lia Bool.
From Stdlib Require Import DecimalString DecimalZ DecimalPos.
From stdpp Require Import base option strings gmap.

Local Open Scope string_scope.
Local Open Scope Z_scope.

(** ** JavaScript Numbers holding integers *)

Module JSNumber.

(** Largest magnitude below which every integer is a binary64 value
    ([Number.MAX_SAFE_INTEGER + 1]). *)
Definition two53 : Z := 2 ^ 53.

(** Round an exact integer result to the nearest binary64 value, ties to the
    even significand.  Faithful for magnitudes below [2 ^ 1024]. *)
Definition js_round (z : Z) : Z :=
  let a := Z.abs z in
  if a <? two53 then z
  else
    let e := Z.log2 a - 52 in
    let q := Z.shiftr a e in
    let r := Z.land a (Z.ones e) in
    let half := Z.shiftl 1 (e - 1) in
    let q' := if r <? half then q
              else if half <? r then q + 1
              else if Z.even q then q else q + 1 in
    Z.sgn z * Z.shiftl q' e.

(** [a * b], [a + b] and [a - b] on Numbers. *)
Definition js_mul (a b : Z) : Z := js_round (a * b).
Definition js_add (a b : Z) : Z := js_round (a + b).
Definition js_sub (a b : Z) : Z := js_round (a - b).

(** Decimal digits of an integer. *)
Definition decimal (z : Z) : string := NilZero.string_of_int (Z.to_int z).

(** Number of decimal digits of a positive integer. *)
Definition ndigits (z : Z) : nat := String.length (decimal z).

(** [Number::toString] chooses the decimal with the fewest significant digits
    that still rounds to the Number, and among those the closest one (the
    even one on a tie).  [shortest_from j x] looks for such a decimal among
    the multiples of [10 ^ j], [10 ^ (j - 1)], ... in turn; [shortest] starts
    from a power of ten that is not below [x]. *)
Fixpoint shortest_from (j : nat) (x : Z) : Z :=
  let p := 10 ^ Z.of_nat j in
  let lo := (x / p) * p in
  let hi := lo + p in
  let lo_ok := (0 <? lo) && (js_round lo =? x) in
  let hi_ok := js_round hi =? x in
  let next := match j with O => x | S j' => shortest_from j' x end in
  if lo_ok && hi_ok then
    if x - lo <? hi - x then lo
    else if hi - x <? x - lo then hi
    else if Z.even (lo / p) then lo else hi
  else if lo_ok then lo
  else if hi_ok then hi
  else next.

Definition shortest (x : Z) : Z := shortest_from (Z.to_nat (Z.log2 x)) x.

(** Drop the trailing zeros of a digit string. *)
Fixpoint strip_zeros (s : string) : string :=
  match s with
  | EmptyString => EmptyString
  | String c rest =>
      match strip_zeros rest with
      | EmptyString => if Ascii.eqb c "0" then EmptyString else String c EmptyString
      | rest' => String c rest'
      end
  end.

(** Rendering of a positive Number [x]. *)
Definition toString_pos (x : Z) : string :=
  let s := shortest x in
  if s <? 10 ^ 21 then decimal s
  else
    let digits := strip_zeros (decimal s) in
    let expo := decimal (Z.of_nat (ndigits s) - 1) in
    match digits with
    | String d EmptyString => String d EmptyString +:+ "e+" +:+ expo
    | String d rest => String d EmptyString +:+ "." +:+ rest +:+ "e+" +:+ expo
    | EmptyString => EmptyString
    end.

(** [Number.prototype.toString()] (radix 10) on an integer-valued Number. *)
Definition Number_toString (x : Z) : string :=
  if x =? 0 then "0"
  else if x <? 0 then "-" +:+ toString_pos (- x)
  else toString_pos x.

(** The [Date] time values: [new Date(v)] is a valid date exactly when
    [|v| <= 8.64e15] milliseconds. *)
Definition max_time_value : Z := 8640000000000000.

Definition valid_time (ms : Z) : bool := Z.abs ms <=? max_time_value.

End JSNumber.

(** ** Strings and dates of the JavaScript runtime *)

Module JSRuntime.
Import JSNumber.

(** Left-pad a digit string with zeros up to [width] characters. *)
Fixpoint zeros (n : nat) : string :=
  match n with O => EmptyString | S n' => String "0" (zeros n') end.

Definition pad (width : nat) (s : string) : string :=
  zeros (width - String.length s) +:+ s.

(** [String.prototype.length]: the number of UTF-16 code units of a string
    kept as its UTF-8 bytes.  A continuation byte ([0x80]-[0xBF]) adds
    nothing, the first byte of a four-byte character (from [0xF0]) stands for
    a surrogate pair and adds two, any other byte adds one. *)
Fixpoint utf16_length (s : string) : Z :=
  match s with
  | EmptyString => 0
  | String c rest =>
      let n := Z.of_nat (nat_of_ascii c) in
      (if (128 <=? n) && (n <? 192) then 0
       else if 240 <=? n then 2
       else 1) + utf16_length rest
  end.

(** [Array.prototype.join(',')] on an array of strings. *)
Definition join_comma (l : list string) : string := String.concat "," l.

(** Calendar date of a day count since 1970-01-01 (proleptic Gregorian). *)
Definition civil_from_days (days : Z) : Z * Z * Z :=
  let z := days + 719468 in
  let era := z / 146097 in
  let doe := z mod 146097 in
  let yoe := (doe - doe / 1460 + doe / 36524 - doe / 146096) / 365 in
  let y := yoe + era * 400 in
  let doy := doe - (365 * yoe + yoe / 4 - yoe / 100) in
  let mp := (5 * doy + 2) / 153 in
  let d := doy - (153 * mp + 2) / 5 + 1 in
  let m := if mp <? 10 then mp + 3 else mp - 9 in
  (if m <=? 2 then y + 1 else y, m, d).

Definition iso_year (y : Z) : string :=
  if (0 <=? y) && (y <=? 9999) then pad 4 (decimal y)
  else if y <? 0 then "-" +:+ pad 6 (decimal (- y))
  else "+" +:+ pad 6 (decimal y).

(** [new Date(ms).toISOString()]; [None] stands for the [RangeError] thrown
    on an invalid date. *)
Definition Date_toISOString (ms : Z) : option string :=
  if valid_time ms then
    let '(y, m, d) := civil_from_days (ms / 86400000) in
    let t := ms mod 86400000 in
    Some (iso_year y +:+ "-" +:+ pad 2 (decimal m) +:+ "-" +:+ pad 2 (decimal d)
          +:+ "T" +:+ pad 2 (decimal (t / 3600000))
          +:+ ":" +:+ pad 2 (decimal (t / 60000 mod 60))
          +:+ ":" +:+ pad 2 (decimal (t / 1000 mod 60))
          +:+ "." +:+ pad 3 (decimal (t mod 1000)) +:+ "Z")
  else None.

(** Characters [encodeURIComponent] leaves as they are:
    [A-Z a-z 0-9 - _ . ! ~ * ' ( )]. *)
Definition uri_unreserved (c : ascii) : bool :=
  let n := Z.of_nat (nat_of_ascii c) in
  ((65 <=? n) && (n <=? 90)) || ((97 <=? n) && (n <=? 122))
  || ((48 <=? n) && (n <=? 57))
  || existsb (Z.eqb n) [45; 95; 46; 33; 126; 42; 39; 40; 41].

Definition hex_digit (n : Z) : ascii :=
  ascii_of_nat (Z.to_nat (if n <? 10 then 48 + n else 55 + n)).

Fixpoint encodeURIComponent (s : string) : string :=
  match s with
  | EmptyString => EmptyString
  | String c rest =>
      let n := Z.of_nat (nat_of_ascii c) in
      if uri_unreserved c then String c (encodeURIComponent rest)
      else String "%" (String (hex_digit (n / 16))
             (String (hex_digit (n mod 16)) (encodeURIComponent rest)))
  end.

End JSRuntime.

(** ** Exceptions *)

(** The error objects the module throws or lets through. *)
Inductive JSError : Type :=
  | Error (message : string)
  | RangeError (message : string)
  | TypeError (message : string).

Definition error_message (e : JSError) : string :=
  match e with Error m | RangeError m | TypeError m => m end.

(** A call either returns (a promise resolves) or throws (it rejects). *)
Inductive Outcome (A : Type) : Type :=
  | Return (a : A)
  | Throw (e : JSError).
Arguments Return {A} a.
Arguments Throw {A} e.

(** ** The record builder: [prepareLogEntry] *)

Module Builder.
Import JSNumber JSRuntime.

(** The transcript handed to [logTranscript] (see its JSDoc). *)
Record Complexity := { level : option string }.

Record Metadata := {
  safetyFlags : option (list string);
  vocabularyComplexity : option Complexity;
  grammarComplexity : option Complexity;
  turnDuration : option Z;
  messageId : option string }.

Record Context := {
  conversationFlow : option string;
  userIntent : option string }.

Record Transcript := {
  sessionId : string;
  turnNumber : Z;
  timestamp : Z;
  messageType : string;
  content : option string;
  metadata : option Metadata;
  context : option Context }.

(** The ten labels of the stream. *)
Record Labels := {
  job : string;
  session_id : string;
  message_type : string;
  turn_number : string;
  content_length : string;
  safety_flags : string;
  vocabulary_complexity : string;
  grammar_complexity : string;
  conversation_flow : string;
  user_intent : string }.

(** The object handed to [JSON.stringify] for the log line.  The entry keeps
    the object itself; the text the serialisation makes of it is left to the
    transport. *)
Record Payload := {
  p_timestamp : string;
  p_level : string;
  p_message : string;
  p_sessionId : string;
  p_turnNumber : Z;
  p_messageType : string;
  p_content : option string;
  p_metadata : option Metadata;
  p_context : option Context;
  p_contentLength : Z;
  p_safetyFlags : list string;
  p_vocabularyComplexity : string;
  p_grammarComplexity : string;
  p_turnDuration : Z;
  p_messageId : string }.

Record Stream := {
  stream : Labels;
  values : list (string * Payload) }.

Record LogEntry := { streams : list Stream }.

(** [s || d] on an optional string: [undefined] and the empty string are
    falsy. *)
Definition str_or (s : option string) (d : string) : string :=
  match s with
  | Some EmptyString | None => d
  | Some v => v
  end.

(** [n || 0] on an optional Number. *)
Definition num_or_zero (n : option Z) : Z :=
  match n with Some v => v | None => 0 end.

(** [o?.f] for an optional object [o] and an optional field [f]. *)
Definition opt_field {A B : Type} (o : option A) (f : A -> option B) : option B :=
  match o with Some a => f a | None => None end.

Definition prepareLogEntry (serviceName : string) (transcript : Transcript)
  : Outcome LogEntry :=
  match Date_toISOString (timestamp transcript) with
  | None => Throw (RangeError "Invalid time value")
  | Some iso =>
      let flags :=
        match opt_field (metadata transcript) safetyFlags with
        | Some l => l
        | None => []
        end in
      let safetyFlagsStr :=
        if 0 <? Z.of_nat (length flags) then join_comma flags else "none" in
      let vocabComplexity :=
        str_or (opt_field (opt_field (metadata transcript) vocabularyComplexity) level)
               "unknown" in
      let grammarComplexity_ :=
        str_or (opt_field (opt_field (metadata transcript) grammarComplexity) level)
               "unknown" in
      let contentLength :=
        num_or_zero (option_map utf16_length (content transcript)) in
      Return {| streams := [
        {| stream := {|
             job := serviceName;
             session_id := sessionId transcript;
             message_type := messageType transcript;
             turn_number := Number_toString (turnNumber transcript);
             content_length := Number_toString contentLength;
             safety_flags := safetyFlagsStr;
             vocabulary_complexity := vocabComplexity;
             grammar_complexity := grammarComplexity_;
             conversation_flow :=
               str_or (opt_field (context transcript) conversationFlow) "unknown";
             user_intent :=
               str_or (opt_field (context transcript) userIntent) "unknown" |};
           values := [
             (Number_toString (js_mul (timestamp transcript) 1000000),
              {| p_timestamp := iso;
                 p_level := "info";
                 p_message := "Transcript recorded";
                 p_sessionId := sessionId transcript;
                 p_turnNumber := turnNumber transcript;
                 p_messageType := messageType transcript;
                 p_content := content transcript;
                 p_metadata := metadata transcript;
                 p_context := context transcript;
                 p_contentLength := contentLength;
                 p_safetyFlags := flags;
                 p_vocabularyComplexity := vocabComplexity;
                 p_grammarComplexity := grammarComplexity_;
                 p_turnDuration :=
                   num_or_zero (opt_field (metadata transcript) turnDuration);
                 p_messageId :=
                   str_or (opt_field (metadata transcript) messageId) "unknown" |})
           ] |} ] |}
  end.

(** The nanosecond stamp and the labels of the single stream of an entry. *)
Definition timestampNanos (e : LogEntry) : option string :=
  match streams e with
  | [s] => match values s with [(ts, _)] => Some ts | _ => None end
  | _ => None
  end.

Definition labels (e : LogEntry) : option Labels :=
  match streams e with [s] => Some (stream s) | _ => None end.

End Builder.

(** ** Values read out of a parsed response *)

Module JSValue.
Import JSNumber JSRuntime.

(** What [JSON.parse] returns.  Numbers are the integer-valued ones; the
    properties of an object are listed once each, as [JSON.parse] leaves
    them. *)
#[warnings="-register-all"] Inductive JSON : Type :=
  | JNull
  | JBool (b : bool)
  | JNumber (n : Z)
  | JString (s : string)
  | JArray (items : list JSON)
  | JObject (props : list (string * JSON)).

(** The values that flow through [getTranscriptStats]: parsed JSON,
    [undefined], [NaN], and the built-in function [Array.prototype.values]
    that the property name [values] finds on an array. *)
Inductive Value : Type :=
  | VUndefined
  | VNaN
  | VJson (j : JSON)
  | VArrayValuesFn.

(** Property keys: a name ([.data]) or an index ([[0]]). *)
Inductive Key : Type :=
  | KName (name : string)
  | KIndex (i : nat).

Definition of_option (o : option JSON) : Value :=
  match o with Some j => VJson j | None => VUndefined end.

Fixpoint own_property (props : list (string * JSON)) (name : string) : option JSON :=
  match props with
  | [] => None
  | (k, v) :: rest => if String.eqb k name then Some v else own_property rest name
  end.

Definition key_name (k : Key) : string :=
  match k with KName s => s | KIndex i => decimal (Z.of_nat i) end.

(** [v.k] / [v[k]]: a [TypeError] on [undefined] and [null]; otherwise own
    properties, array elements and [length], string characters and [length],
    and [Array.prototype.values].  The module indexes a value only by [[0]]
    and reads nothing off the character it finds in a string. *)
Definition get (v : Value) (k : Key) : Outcome Value :=
  match v with
  | VUndefined =>
      Throw (TypeError ("Cannot read properties of undefined (reading '"
                        +:+ key_name k +:+ "')"))
  | VJson JNull =>
      Throw (TypeError ("Cannot read properties of null (reading '"
                        +:+ key_name k +:+ "')"))
  | VJson (JObject props) => Return (of_option (own_property props (key_name k)))
  | VJson (JArray items) =>
      match k with
      | KIndex i => Return (of_option (nth_error items i))
      | KName name =>
          if String.eqb name "length" then
            Return (VJson (JNumber (Z.of_nat (length items))))
          else if String.eqb name "values" then Return VArrayValuesFn
          else Return VUndefined
      end
  | VJson (JString s) =>
      match k with
      | KIndex i =>
          Return (match String.get i s with
                  | Some c => VJson (JString (String c EmptyString))
                  | None => VUndefined
                  end)
      | KName name =>
          if String.eqb name "length" then
            Return (VJson (JNumber (utf16_length s)))
          else Return VUndefined
      end
  | VJson (JNumber _) | VJson (JBool _) | VNaN => Return VUndefined
  | VArrayValuesFn =>
      match k with
      | KName name =>
          if String.eqb name "length" then Return (VJson (JNumber 0))
          else Return VUndefined
      | KIndex _ => Return VUndefined
      end
  end.

(** [v?.k]: [undefined] on [undefined] and [null], [v.k] otherwise. *)
Definition get_opt (v : Value) (k : Key) : Value :=
  match get v k with
  | Return r => r
  | Throw _ => VUndefined
  end.

(** Truthiness, as [||] tests it. *)
Definition truthy (v : Value) : bool :=
  match v with
  | VUndefined | VNaN | VJson JNull => false
  | VJson (JBool b) => b
  | VJson (JNumber n) => negb (n =? 0)
  | VJson (JString EmptyString) => false
  | VJson (JString _) | VJson (JArray _) | VJson (JObject _) | VArrayValuesFn => true
  end.

(** [v || 0]. *)
Definition or_zero (v : Value) : Value :=
  if truthy v then v else VJson (JNumber 0).

(** [ToString] on parsed JSON; inside an array [null] prints as nothing. *)
Fixpoint json_toString (j : JSON) : string :=
  match j with
  | JNull => "null"
  | JBool true => "true"
  | JBool false => "false"
  | JNumber n => Number_toString n
  | JString s => s
  | JArray items =>
      join_comma
        ((fix elems (l : list JSON) : list string :=
            match l with
            | [] => []
            | JNull :: rest => EmptyString :: elems rest
            | x :: rest => json_toString x :: elems rest
            end) items)
  | JObject _ => "[object Object]"
  end.

(** The primitive an operand of [+] is converted to ([ToPrimitive]):
    primitives stay what they are, arrays, objects and functions become
    their string. *)
Inductive Primitive : Type :=
  | PString (s : string)
  | PNumber (n : Z)
  | PBoolean (b : bool)
  | PNull
  | PNaN
  | PUndefined.

Definition to_primitive (v : Value) : Primitive :=
  match v with
  | VUndefined => PUndefined
  | VNaN => PNaN
  | VJson JNull => PNull
  | VJson (JBool b) => PBoolean b
  | VJson (JNumber n) => PNumber n
  | VJson j => PString (json_toString j)
  | VArrayValuesFn => PString "function values() { [native code] }"
  end.

(** [ToString] on a primitive. *)
Definition primitive_toString (p : Primitive) : string :=
  match p with
  | PString s => s
  | PNumber n => Number_toString n
  | PBoolean true => "true"
  | PBoolean false => "false"
  | PNull => "null"
  | PNaN => "NaN"
  | PUndefined => "undefined"
  end.

(** [ToNumber] on a primitive that is not a string; [None] stands for
    [NaN]. *)
Definition primitive_toNumber (p : Primitive) : option Z :=
  match p with
  | PNumber n => Some n
  | PBoolean b => Some (if b then 1 else 0)
  | PNull => Some 0
  | PString _ | PNaN | PUndefined => None
  end.

(** [a + b]: a concatenation as soon as one operand is a string, a sum of
    Numbers otherwise. *)
Definition plus (a b : Value) : Value :=
  match to_primitive a, to_primitive b with
  | PString x, pb => VJson (JString (x +:+ primitive_toString pb))
  | pa, PString y => VJson (JString (primitive_toString pa +:+ y))
  | pa, pb =>
      match primitive_toNumber pa, primitive_toNumber pb with
      | Some x, Some y => VJson (JNumber (js_add x y))
      | _, _ => VNaN
      end
  end.

End JSValue.

(** ** The logger: store, network, clock *)

Module Logger.
Import JSNumber JSRuntime Builder JSValue.

(** [this.metrics].  The two totals count pushes: they stay far below
    [2 ^ 53], where [++] on a Number is exact, and are kept as integers. *)
Record Metrics := {
  transcriptEntriesTotal : Z;
  transcriptErrorsTotal : Z;
  lastTranscriptTimestamp : option Z }.

(** The fields of one [TranscriptLogger] object. *)
Record TranscriptLogger := {
  lokiEndpoint : string;
  serviceName : string;
  enabled : bool;
  metrics : Metrics }.

(** The [options] argument of the constructor, every field optional. *)
Record Options := {
  opt_lokiEndpoint : option string;
  opt_serviceName : option string;
  opt_enabled : option bool }.

(** Requests handed to [http.request]: the method, the path and, for a
    push, the entry that is serialized into the body.  Host, port and
    headers are constants of the source. *)
Inductive Request : Type :=
  | POST (path : string) (body : LogEntry)
  | GET (path : string).

(** What [JSON.parse] makes of a response body. *)
Inductive ParseOutcome : Type :=
  | SyntaxError (message : string)
  | Parsed (v : JSON).

(** A response: its status, the text of its body, and the outcome of
    [JSON.parse] on that text. *)
Record Response := {
  statusCode : Z;
  data : string;
  parsed : ParseOutcome }.

(** A request ends in the ['error'] event or in a response. *)
Inductive Reply : Type :=
  | TransportFailure (message : string)
  | Responded (res : Response).

(** The world a call runs in: the store of logger objects, the readings
    [Date.now()] will return, the backend (its reply to the [n]-th request),
    and the requests sent so far. *)
Record World := {
  store : gmap nat TranscriptLogger;
  clock : nat -> Z;
  clock_reads : nat;
  backend : nat -> Request -> Reply;
  requests : list Request }.

Definition set_store (f : gmap nat TranscriptLogger -> gmap nat TranscriptLogger)
    (w : World) : World :=
  {| store := f (store w); clock := clock w; clock_reads := clock_reads w;
     backend := backend w; requests := requests w |}.

(** Calls are state transformers that return or throw. *)
Definition M (A : Type) : Type := World -> Outcome A * World.

Definition ret {A : Type} (a : A) : M A := fun w => (Return a, w).

Definition throw {A : Type} (e : JSError) : M A := fun w => (Throw e, w).

Definition bind {A B : Type} (m : M A) (k : A -> M B) : M B :=
  fun w =>
    match m w with
    | (Return a, w') => k a w'
    | (Throw e, w') => (Throw e, w')
    end.

(** [try { body } catch (error) { handler }]. *)
Definition try_catch {A : Type} (body : M A) (handler : JSError -> M A) : M A :=
  fun w =>
    match body w with
    | (Return a, w') => (Return a, w')
    | (Throw e, w') => handler e w'
    end.

(** A promise left to settle: its outcome, as a value. *)
Definition settle {A : Type} (m : M A) : M (Outcome A) :=
  fun w => let '(r, w') := m w in (Return r, w').

Definition lift {A : Type} (o : Outcome A) : M A := fun w => (o, w).

Notation "x <- m ;; k" := (bind m (fun x => k))
  (at level 100, m at next level, right associativity).
Notation "m ;;; k" := (bind m (fun _ => k))
  (at level 100, right associativity).

(** One more reading of the clock; one more request on the wire. *)
Definition tick (w : World) : World :=
  {| store := store w; clock := clock w; clock_reads := S (clock_reads w);
     backend := backend w; requests := requests w |}.

Definition send (req : Request) (w : World) : World :=
  {| store := store w; clock := clock w; clock_reads := clock_reads w;
     backend := backend w; requests := requests w ++ [req] |}.

(** [Date.now()]. *)
Definition Date_now : M Z :=
  fun w => (Return (clock w (clock_reads w)), tick w).

(** [http.request(options, ...)] followed to its ['end'] or ['error']. *)
Definition http_request (req : Request) : M Reply :=
  fun w => (Return (backend w (length (requests w)) req), send req w).

(** Reading and updating the fields of [this].  An identity that names no
    object does not come out of the constructor; reading through it throws. *)
Definition read_this (this : nat) : M TranscriptLogger :=
  fun w =>
    match store w !! this with
    | Some o => (Return o, w)
    | None => (Throw (TypeError "this is undefined"), w)
    end.

Definition update_metrics_of (this : nat) (f : Metrics -> Metrics) : M unit :=
  o <- read_this this ;;
  fun w =>
    (Return tt,
     set_store (insert this {| lokiEndpoint := lokiEndpoint o;
                               serviceName := serviceName o;
                               enabled := enabled o;
                               metrics := f (metrics o) |}) w).

(** [new TranscriptLogger(options)]: a fresh object in the store. *)
Definition new_TranscriptLogger (options : Options) : M nat :=
  fun w =>
    let this := fresh (dom (store w)) in
    (Return this,
     set_store (insert this
       {| lokiEndpoint := str_or (opt_lokiEndpoint options) "http://localhost:3100";
          serviceName := str_or (opt_serviceName options) "zaralive-transcripts";
          enabled := match opt_enabled options with Some false => false | _ => true end;
          metrics := {| transcriptEntriesTotal := 0;
                        transcriptErrorsTotal := 0;
                        lastTranscriptTimestamp := None |} |}) w).

(** [sendToLoki(logEntry)]. *)
Definition sendToLoki (logEntry : LogEntry) : M string :=
  reply <- http_request (POST "/loki/api/v1/push" logEntry) ;;
  match reply with
  | Responded res =>
      if (200 <=? statusCode res) && (statusCode res <? 300) then ret (data res)
      else throw (Error ("Loki responded with status "
                         +:+ Number_toString (statusCode res) +:+ ": " +:+ data res))
  | TransportFailure message =>
      throw (Error ("Failed to send to Loki: " +:+ message))
  end.

(** [updateMetrics(transcript, status)]. *)
Definition updateMetrics (this : nat) (transcript : Transcript) (status : string)
  : M unit :=
  if String.eqb status "success" then
    update_metrics_of this (fun m =>
      {| transcriptEntriesTotal := transcriptEntriesTotal m + 1;
         transcriptErrorsTotal := transcriptErrorsTotal m;
         lastTranscriptTimestamp := lastTranscriptTimestamp m |}) ;;;
    now <- Date_now ;;
    update_metrics_of this (fun m =>
      {| transcriptEntriesTotal := transcriptEntriesTotal m;
         transcriptErrorsTotal := transcriptErrorsTotal m;
         lastTranscriptTimestamp := Some now |})
  else
    update_metrics_of this (fun m =>
      {| transcriptEntriesTotal := transcriptEntriesTotal m;
         transcriptErrorsTotal := transcriptErrorsTotal m + 1;
         lastTranscriptTimestamp := lastTranscriptTimestamp m |}).

(** [getMetrics()]: a copy of the three counters. *)
Record MetricsSnapshot := {
  transcript_entries_total : Z;
  transcript_errors_total : Z;
  last_transcript_timestamp : option Z }.

Definition getMetrics (this : nat) : M MetricsSnapshot :=
  o <- read_this this ;;
  ret {| transcript_entries_total := transcriptEntriesTotal (metrics o);
         transcript_errors_total := transcriptErrorsTotal (metrics o);
         last_transcript_timestamp := lastTranscriptTimestamp (metrics o) |}.

(** [logTranscript(transcript)]. *)
Definition logTranscript (this : nat) (transcript : Transcript) : M unit :=
  o <- read_this this ;;
  if negb (enabled o) then ret tt
  else
    try_catch
      (logEntry <- lift (prepareLogEntry (serviceName o) transcript) ;;
       sendToLoki logEntry ;;;
       updateMetrics this transcript "success")
      (fun error =>
         updateMetrics this transcript "error" ;;;
         throw error).

(** One element of the array [logTranscripts] returns. *)
Record BatchResult := {
  r_transcript : Transcript;
  r_status : string;
  r_error : option string }.

(** The [for ... of] loop of [logTranscripts], [results] being the array
    filled so far. *)
Fixpoint logTranscripts_loop (this : nat) (transcripts : list Transcript)
    (results : list BatchResult) : M (list BatchResult) :=
  match transcripts with
  | [] => ret results
  | transcript :: rest =>
      r <- try_catch
             (logTranscript this transcript ;;;
              ret {| r_transcript := transcript; r_status := "success";
                     r_error := None |})
             (fun error =>
                ret {| r_transcript := transcript; r_status := "error";
                       r_error := Some (error_message error) |}) ;;
      logTranscripts_loop this rest (results ++ [r])
  end.

(** [logTranscripts(transcripts)]. *)
Definition logTranscripts (this : nat) (transcripts : list Transcript)
  : M (list BatchResult) :=
  logTranscripts_loop this transcripts [].

(** [v || d] on an optional Number, [d] being evaluated only when [v] is
    falsy ([undefined] or [0]). *)
Definition num_or (v : option Z) (d : M Z) : M Z :=
  match v with
  | Some x => if x =? 0 then d else ret x
  | None => d
  end.

(** The double quote of the selectors. *)
Definition dquote : string := String (ascii_of_nat 34) EmptyString.

(** [searchTranscripts(query, startTime, endTime)]. *)
Definition searchTranscripts (query : string) (startTime endTime : option Z)
  : M JSON :=
  let encodedQuery := encodeURIComponent query in
  start <- num_or startTime
             (now <- Date_now ;; ret (js_sub now (24 * 60 * 60 * 1000))) ;;
  end_ <- num_or endTime Date_now ;;
  reply <- http_request
             (GET ("/loki/api/v1/query_range?query=" +:+ encodedQuery
                   +:+ "&start=" +:+ Number_toString (js_mul start 1000000)
                   +:+ "&end=" +:+ Number_toString (js_mul end_ 1000000))) ;;
  match reply with
  | Responded res =>
      match parsed res with
      | Parsed response => ret response
      | SyntaxError message =>
          throw (Error ("Failed to parse Loki response: " +:+ message))
      end
  | TransportFailure message =>
      throw (Error ("Failed to query Loki: " +:+ message))
  end.

(** [Promise.all([a, b])] for two calls started in this order: both run, and
    the result is the pair of values unless one of them rejected.  Of two
    rejections the first of the array is passed on here; the only handler in
    the module does not look at it. *)
Definition Promise_all2 {A B : Type} (a : M A) (b : M B) : M (A * B) :=
  ra <- settle a ;;
  rb <- settle b ;;
  match ra, rb with
  | Return x, Return y => ret (x, y)
  | Throw e, _ => throw e
  | _, Throw e => throw e
  end.

(** The object [getTranscriptStats] returns. *)
Record Stats := {
  timeRange : string;
  userMessages : Value;
  zaraMessages : Value;
  totalMessages : Value;
  startTime : string;
  endTime : string }.

(** [logs.data?.result?.[0]?.values?.length || 0]. *)
Definition message_count (logs : JSON) : Outcome Value :=
  match get (VJson logs) (KName "data") with
  | Throw e => Throw e
  | Return d =>
      Return (or_zero
        (get_opt (get_opt (get_opt (get_opt d (KName "result")) (KIndex 0))
                          (KName "values")) (KName "length")))
  end.

Definition toISOString (ms : Z) : M string :=
  match Date_toISOString ms with
  | Some s => ret s
  | None => throw (RangeError "Invalid time value")
  end.

(** The [switch (timeRange)] of [getTranscriptStats]: the start of the window
    that ends at [end_]. *)
Definition window_start (timeRange : string) (end_ : Z) : Z :=
  if String.eqb timeRange "1h" then js_sub end_ (60 * 60 * 1000)
  else if String.eqb timeRange "24h" then js_sub end_ (24 * 60 * 60 * 1000)
  else if String.eqb timeRange "7d" then js_sub end_ (7 * 24 * 60 * 60 * 1000)
  else js_sub end_ (60 * 60 * 1000).

(** The selector of one message type, a template literal in the source. *)
Definition selector (serviceName : string) (messageType : string) : string :=
  "{job=" +:+ dquote +:+ serviceName +:+ dquote
  +:+ ", message_type=" +:+ dquote +:+ messageType +:+ dquote +:+ "}".

(** [getTranscriptStats(timeRange = '1h')]; [None] is the [null] returned
    from the [catch] block. *)
Definition getTranscriptStats (this : nat) (timeRange_arg : option string)
  : M (option Stats) :=
  let timeRange := match timeRange_arg with Some s => s | None => "1h" end in
  end_ <- Date_now ;;
  let start := window_start timeRange end_ in
  try_catch
    (o <- read_this this ;;
     let userQuery := selector (serviceName o) "user" in
     let zaraQuery := selector (serviceName o) "zara" in
     logs <- Promise_all2 (searchTranscripts userQuery (Some start) (Some end_))
                          (searchTranscripts zaraQuery (Some start) (Some end_)) ;;
     let '(userLogs, zaraLogs) := logs in
     userCount <- lift (message_count userLogs) ;;
     zaraCount <- lift (message_count zaraLogs) ;;
     startIso <- toISOString start ;;
     endIso <- toISOString end_ ;;
     ret (Some {| timeRange := timeRange;
                  userMessages := userCount;
                  zaraMessages := zaraCount;
                  totalMessages := plus userCount zaraCount;
                  startTime := startIso;
                  endTime := endIso |}))
    (fun error => ret None).

End Logger.

(** * Vocabulary of the statements *)

(** ** Calls, pushes and queries in closed form *)

Module Runs.
Import JSNumber JSRuntime Builder JSValue Logger.

(** The calls a client of the module can make. *)
Inductive Call : Type :=
  | CallNew (options : Options)
  | CallLogTranscript (this : nat) (transcript : Transcript)
  | CallLogTranscripts (this : nat) (transcripts : list Transcript)
  | CallGetMetrics (this : nat)
  | CallSearchTranscripts (query : string) (startTime endTime : option Z)
  | CallGetTranscriptStats (this : nat) (timeRange : option string).

(** The world a call leaves behind. *)
Definition exec (c : Call) (w : World) : World :=
  match c with
  | CallNew options => snd (new_TranscriptLogger options w)
  | CallLogTranscript this transcript => snd (logTranscript this transcript w)
  | CallLogTranscripts this transcripts => snd (logTranscripts this transcripts w)
  | CallGetMetrics this => snd (getMetrics this w)
  | CallSearchTranscripts query s e => snd (searchTranscripts query s e w)
  | CallGetTranscriptStats this timeRange => snd (getTranscriptStats this timeRange w)
  end.

Definition exec_all (calls : list Call) (w : World) : World :=
  fold_left (fun w c => exec c w) calls w.

(** The calls that push on the instance [this]. *)
Definition pushes_on (this : nat) (c : Call) : Prop :=
  match c with
  | CallLogTranscript l _ | CallLogTranscripts l _ => l = this
  | _ => False
  end.

(** A status of the success range. *)
Definition success_status (status : Z) : bool :=
  (200 <=? status) && (status <? 300).

(** The request [sendToLoki] makes for an entry. *)
Definition push_request (logEntry : LogEntry) : Request :=
  POST "/loki/api/v1/push" logEntry.

Definition with_metrics (o : TranscriptLogger) (m : Metrics) : TranscriptLogger :=
  {| lokiEndpoint := lokiEndpoint o; serviceName := serviceName o;
     enabled := enabled o; metrics := m |}.

(** The instance after [updateMetrics(_, 'success')] at time [now], and after
    [updateMetrics(_, 'error')]. *)
Definition counted_success (o : TranscriptLogger) (now : Z) : TranscriptLogger :=
  with_metrics o
    {| transcriptEntriesTotal := transcriptEntriesTotal (metrics o) + 1;
       transcriptErrorsTotal := transcriptErrorsTotal (metrics o);
       lastTranscriptTimestamp := Some now |}.

Definition counted_error (o : TranscriptLogger) : TranscriptLogger :=
  with_metrics o
    {| transcriptEntriesTotal := transcriptEntriesTotal (metrics o);
       transcriptErrorsTotal := transcriptErrorsTotal (metrics o) + 1;
       lastTranscriptTimestamp := lastTranscriptTimestamp (metrics o) |}.

(** The world after a push that went through, and after one that failed on
    the wire or at the backend. *)
Definition pushed_ok (this : nat) (o : TranscriptLogger) (req : Request)
    (w : World) : World :=
  {| store := <[this := counted_success o (clock w (clock_reads w))]> (store w);
     clock := clock w; clock_reads := S (clock_reads w);
     backend := backend w; requests := requests w ++ [req] |}.

Definition pushed_failed (this : nat) (o : TranscriptLogger) (req : Request)
    (w : World) : World :=
  {| store := <[this := counted_error o]> (store w);
     clock := clock w; clock_reads := clock_reads w;
     backend := backend w; requests := requests w ++ [req] |}.

(** The error [sendToLoki] rejects with, for a reply that is not a success. *)
Definition push_error (reply : Reply) : JSError :=
  match reply with
  | Responded res =>
      Error ("Loki responded with status "
             +:+ JSNumber.Number_toString (statusCode res) +:+ ": " +:+ data res)
  | TransportFailure message => Error ("Failed to send to Loki: " +:+ message)
  end.

Definition accepted (reply : Reply) : bool :=
  match reply with
  | Responded res => success_status (statusCode res)
  | TransportFailure _ => false
  end.

(** The element of the batch result for one outcome of [logTranscript]. *)
Definition result_of (transcript : Transcript) (r : Outcome unit) : BatchResult :=
  match r with
  | Return _ => {| r_transcript := transcript; r_status := "success"; r_error := None |}
  | Throw e => {| r_transcript := transcript; r_status := "error";
                  r_error := Some (error_message e) |}
  end.

(** The transcripts pushed one after the other, each in the world the
    previous one left: the outcomes, and the last world. *)
Fixpoint attempts (this : nat) (transcripts : list Transcript) (w : World)
  : list (Outcome unit) * World :=
  match transcripts with
  | [] => ([], w)
  | transcript :: rest =>
      let '(r, w1) := logTranscript this transcript w in
      let '(rs, w2) := attempts this rest w1 in
      (r :: rs, w2)
  end.

Fixpoint results_of (transcripts : list Transcript) (rs : list (Outcome unit))
  : list BatchResult :=
  match transcripts, rs with
  | transcript :: rest, r :: rs' => result_of transcript r :: results_of rest rs'
  | _, _ => []
  end.

(** [b || f(Date.now())]: the bound, or the clock read once. *)
Definition bound_or_now (b : option Z) (f : Z -> Z) (w : World) : Z * World :=
  match b with
  | Some x => if x =? 0 then (f (clock w (clock_reads w)), tick w) else (x, w)
  | None => (f (clock w (clock_reads w)), tick w)
  end.

(** The path of a range query, given the rendered bounds. *)
Definition query_path (query start end_ : string) : string :=
  "/loki/api/v1/query_range?query=" +:+ encodeURIComponent query
  +:+ "&start=" +:+ start +:+ "&end=" +:+ end_.

(** What [searchTranscripts] makes of a reply. *)
Definition query_outcome (reply : Reply) : Outcome JSON :=
  match reply with
  | Responded res =>
      match parsed res with
      | Parsed response => Return response
      | SyntaxError message =>
          Throw (Error ("Failed to parse Loki response: " +:+ message))
      end
  | TransportFailure message => Throw (Error ("Failed to query Loki: " +:+ message))
  end.

(** A bound that is left out: [undefined], or the falsy [0]. *)
Definition omitted (b : option Z) : Prop := b = None \/ b = Some 0.

Definition rejected {A : Type} (r : Outcome A) : Prop := exists e, r = Throw e.

(** The window argument once the default has been applied. *)
Definition window_name (timeRange : option string) : string :=
  match timeRange with Some s => s | None => "1h" end.

(** A call respects the relation [I] between the world before and the world
    after. *)
Definition preserves (I : World -> World -> Prop) {A : Type} (m : M A) : Prop :=
  forall w, I w (snd (m w)).

(** The instance [l] keeps existing and keeps its [enabled] flag. *)
Definition keeps_flag (l : nat) (w w' : World) : Prop :=
  forall o, store w !! l = Some o ->
    exists o', store w' !! l = Some o' /\ enabled o' = enabled o.

(** The instance [l] is left as it is. *)
Definition leaves (l : nat) (w w' : World) : Prop :=
  store w' !! l = store w !! l.

End Runs.

(** ** Streams of a query result *)

Module Results.
Import JSValue.

(** The [values] of a stream object. *)
Definition stream_values (j : JSON) : option (list JSON) :=
  match j with
  | JObject props =>
      match own_property props "values" with
      | Some (JArray vs) => Some vs
      | _ => None
      end
  | _ => None
  end.

Fixpoint all_stream_values (items : list JSON) : option (list (list JSON)) :=
  match items with
  | [] => Some []
  | item :: rest =>
      match stream_values item, all_stream_values rest with
      | Some vs, Some vss => Some (vs :: vss)
      | _, _ => None
      end
  end.

(** The streams of a query result, each as the list of its values. *)
Definition streams_of (j : JSON) : option (list (list JSON)) :=
  match j with
  | JObject props =>
      match own_property props "data" with
      | Some (JObject d) =>
          match own_property d "result" with
          | Some (JArray items) => all_stream_values items
          | _ => None
          end
      | _ => None
      end
  | _ => None
  end.

(** The number of log values a query returned, over all its streams: the
    count the specification asks for. *)
Definition values_returned (streams : list (list JSON)) : Z :=
  fold_right (fun vs acc => Z.of_nat (length vs) + acc) 0 streams.

(** The number of log values of the first stream, 0 without a stream. *)
Definition first_stream_count (streams : list (list JSON)) : Z :=
  match streams with
  | [] => 0
  | vs :: _ => Z.of_nat (length vs)
  end.

End Results.

(** ** The wording of the specification *)

Module Spec.
Import JSNumber JSRuntime Builder JSValue Logger Runs.

(** The nanosecond stamp as the specification words it: the event's
    seconds times [10 ^ 9], in decimal. *)
Definition nanos_of_seconds (seconds : Z) : string := decimal (seconds * 10 ^ 9).

(** The expected shape of a query result, as the specification gives it:
    an object whose [data.result] is an array of streams, each an object
    with a [stream] object and a [values] array of pairs. *)
Definition is_pair (j : JSON) : bool :=
  match j with JArray [_; _] => true | _ => false end.

Definition is_stream (j : JSON) : bool :=
  match j with
  | JObject props =>
      match own_property props "stream", own_property props "values" with
      | Some (JObject _), Some (JArray vs) => forallb is_pair vs
      | _, _ => false
      end
  | _ => false
  end.

Definition query_result_shape (j : JSON) : bool :=
  match j with
  | JObject props =>
      match own_property props "data" with
      | Some (JObject d) =>
          match own_property d "result" with
          | Some (JArray items) => forallb is_stream items
          | _ => false
          end
      | _ => false
      end
  | _ => false
  end.

(** The contract of [query] as the specification states it: an error on a
    transport failure, on a status outside 2xx and on a body that does not
    decode into the expected shape; the result otherwise. *)
Definition query_contract (reply : Reply) (r : Outcome JSON) : Prop :=
  match reply with
  | TransportFailure _ => rejected r
  | Responded res =>
      if success_status (statusCode res) then
        match parsed res with
        | Parsed v => if query_result_shape v then r = Return v else rejected r
        | SyntaxError _ => rejected r
        end
      else rejected r
  end.

(** The path of a range query as the specification states it: bounds in
    seconds, sent as nanoseconds. *)
Definition query_path_of_seconds (query : string) (start end_ : Z) : string :=
  query_path query (nanos_of_seconds start) (nanos_of_seconds end_).

(** The [safetyFlags] list of a turn as the specification speaks of it:
    empty when the turn has no metadata or the metadata has no list. *)
Definition flags_of (t : Transcript) : list string :=
  match metadata t with
  | Some m => match safetyFlags m with Some l => l | None => [] end
  | None => []
  end.

(** The rule of the specification for the [safety_flags] label: the literal
    [none] exactly when the list is empty or absent, the comma-join of the
    flags otherwise. *)
Definition safety_label_rule (t : Transcript) (label : string) : Prop :=
  (label = "none" <-> flags_of t = []) /\
  (flags_of t <> [] -> label = join_comma (flags_of t)).

(** A query fails, in the words of the specification: the transport fails,
    the status is outside 2xx, or the body does not decode into the expected
    shape. *)
Definition query_fails (reply : Reply) : bool :=
  match reply with
  | TransportFailure _ => true
  | Responded res =>
      negb (success_status (statusCode res))
      || match parsed res with
         | Parsed v => negb (query_result_shape v)
         | SyntaxError _ => true
         end
  end.

(** The replies the requests of a run have met, in the order of the
    requests. *)
Definition replies (w : World) : list Reply := imap (backend w) (requests w).

(** The contract of [computeStats] as the specification states it: when one
    of the per-category queries it issued fails, the call fails to its
    caller. *)
Definition stats_contract (query_replies : list Reply)
    (r : Outcome (option Stats)) : Prop :=
  existsb query_fails query_replies = true -> rejected r.

End Spec.

(** ** Worlds, backends and turns used as examples *)

Module Scenarios.
Import JSNumber JSRuntime Builder JSValue Logger Runs.

(** A turn with no metadata and no context, stamped [ts]. *)
Definition plain_turn (ts : Z) : Transcript :=
  {| sessionId := "s1"; turnNumber := 1; timestamp := ts; messageType := "user";
     content := Some "Hello, world!"; metadata := None; context := None |}.

(** A backend reply with a status and a body that is not JSON. *)
Definition reply_with (status : Z) (body : string) : Reply :=
  Responded {| statusCode := status; data := body;
               parsed := SyntaxError "Unexpected end of JSON input" |}.

(** A world with no logger yet, a clock that starts at
    2024-01-15T09:50:00Z and advances by a millisecond per reading, and the
    given backend. *)
Definition fresh_world (b : nat -> Request -> Reply) : World :=
  {| store := ∅; clock := fun n => 1705312200000 + Z.of_nat n; clock_reads := 0;
     backend := b; requests := [] |}.

Definition default_options : Options :=
  {| opt_lokiEndpoint := None; opt_serviceName := None; opt_enabled := None |}.

Definition disabled_options : Options :=
  {| opt_lokiEndpoint := None; opt_serviceName := None; opt_enabled := Some false |}.

(** A backend that accepts every push with 204. *)
Definition always_204 (n : nat) (req : Request) : Reply := reply_with 204 EmptyString.

(** A backend that rejects the second request it receives and accepts the
    others. *)
Definition rejects_second (n : nat) (req : Request) : Reply :=
  if Nat.eqb n 1 then reply_with 400 "entry out of order" else reply_with 204 EmptyString.

(** The world after [new TranscriptLogger()] in a fresh world. *)
Definition one_logger (b : nat -> Request -> Reply) : World :=
  snd (new_TranscriptLogger default_options (fresh_world b)).

(** The selector of the round-trip scenario: [{session_id="s1"}]. *)
Definition session_selector : string :=
  "{session_id=" +:+ dquote +:+ "s1" +:+ dquote +:+ "}".

(** A backend that answers 200 with the body [42]. *)
Definition answers_42 (n : nat) (req : Request) : Reply :=
  Responded {| statusCode := 200; data := "42"; parsed := Parsed (JNumber 42) |}.

(** A backend that answers 500 with a JSON error object. *)
Definition answers_500 (n : nat) (req : Request) : Reply :=
  Responded {| statusCode := 500; data := "{...}";
               parsed := Parsed (JObject [("status", JString "error")]) |}.

(** A backend that is not reachable. *)
Definition unreachable (n : nat) (req : Request) : Reply :=
  TransportFailure "connect ECONNREFUSED 127.0.0.1:3100".

(** JSON text of a value (strings without characters to escape). *)
Fixpoint json_text (j : JSON) : string :=
  match j with
  | JNull => "null"
  | JBool true => "true"
  | JBool false => "false"
  | JNumber n => decimal n
  | JString s => dquote +:+ s +:+ dquote
  | JArray items =>
      "[" +:+ String.concat "," (map json_text items) +:+ "]"
  | JObject props =>
      "{" +:+ String.concat ","
                (map (fun kv => dquote +:+ fst kv +:+ dquote +:+ ":" +:+ json_text (snd kv))
                     props) +:+ "}"
  end.

Definition log_value (ts line : string) : JSON := JArray [JString ts; JString line].

Definition stream_json (turn : string) (vals : list JSON) : JSON :=
  JObject [("stream", JObject [("turn_number", JString turn)]);
           ("values", JArray vals)].

Definition query_response (streams : list JSON) : JSON :=
  JObject [("status", JString "success");
           ("data", JObject [("resultType", JString "streams");
                             ("result", JArray streams)])].

(** The answer for [user]: two streams, of one and of two values. *)
Definition user_response : JSON :=
  query_response
    [stream_json "1" [log_value "1705312100000000000" "hello"];
     stream_json "3" [log_value "1705312110000000000" "how are you";
                      log_value "1705312120000000000" "bye"]].

(** The answer for [zara]: one stream of three values. *)
Definition zara_response : JSON :=
  query_response
    [stream_json "2" [log_value "1705312101000000000" "hi";
                      log_value "1705312111000000000" "fine";
                      log_value "1705312121000000000" "bye"]].

Definition answers (j : JSON) : Reply :=
  Responded {| statusCode := 200; data := json_text j; parsed := Parsed j |}.

(** A backend that answers the first query with [user_response] and the
    later ones with [zara_response]. *)
Definition stats_backend (n : nat) (req : Request) : Reply :=
  if Nat.eqb n 0 then answers user_response else answers zara_response.

(** A backend that answers the first query and is gone for the second. *)
Definition second_query_fails (n : nat) (req : Request) : Reply :=
  if Nat.eqb n 0 then answers user_response
  else TransportFailure "socket hang up".

(** A backend that answers the first query with [user_response] and the
    second with status 500 and a JSON error object. *)
Definition second_query_500 (n : nat) (req : Request) : Reply :=
  if Nat.eqb n 0 then answers user_response else answers_500 n req.

(** A turn carrying the given safety flags, with levels and a context. *)
Definition flagged_turn (flags : list string) : Transcript :=
  {| sessionId := "s1"; turnNumber := 2; timestamp := 1705312200000;
     messageType := "user"; content := Some "Hello, world!";
     metadata := Some {| safetyFlags := Some flags;
                         vocabularyComplexity := Some {| level := Some "simple" |};
                         grammarComplexity := Some {| level := Some "basic" |};
                         turnDuration := Some 1500; messageId := Some "m2" |};
     context := Some {| conversationFlow := Some "start";
                        userIntent := Some "greeting" |} |}.

(** A turn whose content has characters outside ASCII: five characters,
    six bytes. *)
Definition accented_turn : Transcript :=
  {| sessionId := "s1"; turnNumber := 3; timestamp := 1705312200000;
     messageType := "user"; content := Some "héllo";
     metadata := None; context := None |}.

End Scenarios.

(** * The example at the end of the module *)

Module Example.
Import JSNumber JSRuntime Builder JSValue Logger.

(** The transcript of the example at the end of the module, [now] being the
    reading of the clock: [Math.floor(Date.now() / 1000)] is the quotient of
    the reading by 1000 (for readings below [10 ^ 15], where the division of
    Numbers cannot round up to the next integer). *)
Definition exampleTranscript (now : Z) : Transcript :=
  {| sessionId := "example-session-123";
     turnNumber := 1;
     timestamp := now / 1000;
     messageType := "user";
     content := Some "Hello, this is a test transcript";
     metadata := Some {| safetyFlags := None; vocabularyComplexity := None;
                         grammarComplexity := None;
                         turnDuration := Some 1500;
                         messageId := Some "msg_example_123" |};
     context := Some {| conversationFlow := Some "start";
                        userIntent := Some "greeting" |} |}.

(** The example run when the module is the main module: a logger is made,
    the example is pushed, then the statistics of the last hour are asked
    for; a failure of either is caught and printed. *)
Definition main : M unit :=
  logger <- new_TranscriptLogger {| opt_lokiEndpoint := None; opt_serviceName := None;
                                    opt_enabled := None |} ;;
  now <- Date_now ;;
  try_catch
    (logTranscript logger (exampleTranscript now) ;;;
     stats <- getTranscriptStats logger (Some "1h") ;;
     ret tt)
    (fun error => ret tt).

End Example.

(** * Vocabulary of the further properties *)

Module Coverage.
Import JSNumber JSRuntime Builder JSValue Logger Runs.

(** The counters of an instance are in order: the totals are not negative,
    and [lastTranscriptTimestamp] is [null] exactly as long as no success
    has been counted. *)
Definition healthy (m : Metrics) : Prop :=
  0 <= transcriptEntriesTotal m /\ 0 <= transcriptErrorsTotal m /\
  (lastTranscriptTimestamp m = None <-> transcriptEntriesTotal m = 0).

Definition all_healthy (w : World) : Prop :=
  forall l o, store w !! l = Some o -> healthy (metrics o).

(** [o'] is [o] later on: the same configuration, counters that have not
    gone down, and a timestamp of the last success that has not been
    cleared. *)
Definition grown (o o' : TranscriptLogger) : Prop :=
  lokiEndpoint o' = lokiEndpoint o /\ serviceName o' = serviceName o /\
  enabled o' = enabled o /\
  transcriptEntriesTotal (metrics o) <= transcriptEntriesTotal (metrics o') /\
  transcriptErrorsTotal (metrics o) <= transcriptErrorsTotal (metrics o') /\
  (lastTranscriptTimestamp (metrics o) <> None ->
   lastTranscriptTimestamp (metrics o') <> None).

(** The number of results of a batch that carry a given status. *)
Definition count_status (status : string) (results : list BatchResult) : Z :=
  Z.of_nat (length (List.filter (fun r => String.eqb (r_status r) status) results)).

(** The number of transcripts of a batch whose time is a valid date. *)
Definition count_buildable (transcripts : list Transcript) : nat :=
  length (List.filter (fun t => valid_time (timestamp t)) transcripts).

(** The same instance with another [lokiEndpoint]. *)
Definition with_endpoint (o : TranscriptLogger) (endpoint : string) : TranscriptLogger :=
  {| lokiEndpoint := endpoint; serviceName := serviceName o;
     enabled := enabled o; metrics := metrics o |}.

(** The ways the store of instances changes: a success or an error is
    counted on an instance that is there, or an instance with counters at
    zero is created under an identity that was free. *)
Inductive evolves : gmap nat TranscriptLogger -> gmap nat TranscriptLogger -> Prop :=
  | evolves_refl s : evolves s s
  | evolves_success s this o now s' :
      s !! this = Some o ->
      evolves (<[this := counted_success o now]> s) s' -> evolves s s'
  | evolves_error s this o s' :
      s !! this = Some o ->
      evolves (<[this := counted_error o]> s) s' -> evolves s s'
  | evolves_new s this o s' :
      s !! this = None ->
      metrics o = {| transcriptEntriesTotal := 0; transcriptErrorsTotal := 0;
                     lastTranscriptTimestamp := None |} ->
      evolves (<[this := o]> s) s' -> evolves s s'.

(** The same reply with another status code. *)
Definition with_status (status : Z) (reply : Reply) : Reply :=
  match reply with
  | Responded res =>
      Responded {| statusCode := status; data := data res; parsed := parsed res |}
  | TransportFailure message => TransportFailure message
  end.

(** The same world with a backend that answers every request with the given
    status code. *)
Definition answering_with (status : Z) (w : World) : World :=
  {| store := store w; clock := clock w; clock_reads := clock_reads w;
     backend := fun n req => with_status status (backend w n req);
     requests := requests w |}.


(** A parsed result in which [data.result[0]] is not to be found: a value
    that is not an object (and not [null]), an object without [data], or
    one whose [data] has no [result] or an empty one. *)
Definition no_first_stream (j : JSON) : bool :=
  match j with
  | JNull => false
  | JObject props =>
      match own_property props "data" with
      | None => true
      | Some (JObject d) =>
          match own_property d "result" with
          | None | Some (JArray []) => true
          | _ => false
          end
      | _ => false
      end
  | _ => true
  end.

(** A turn whose vocabulary level and conversation flow are empty strings. *)
Definition blank_fields_turn : Transcript :=
  {| sessionId := "s1"; turnNumber := 1; timestamp := 1705312200000;
     messageType := "user"; content := None;
     metadata := Some {| safetyFlags := None;
                         vocabularyComplexity := Some {| level := Some EmptyString |};
                         grammarComplexity := Some {| level := Some "basic" |};
                         turnDuration := None; messageId := None |};
     context := Some {| conversationFlow := Some EmptyString;
                        userIntent := Some "greeting" |} |}.

(** A string of ASCII characters only: every byte is below 128. *)
Definition ascii_only (s : string) : bool :=
  forallb (fun c => Z.of_nat (nat_of_ascii c) <? 128) (list_ascii_of_string s).

(** A backend that answers 200 with the body [null]. *)
Definition answers_null (n : nat) (req : Request) : Reply :=
  Responded {| statusCode := 200; data := "null"; parsed := Parsed JNull |}.

(** A backend that answers every query with 400 and a JSON error object. *)
Definition answers_error_object (n : nat) (req : Request) : Reply :=
  Responded {| statusCode := 400; data := "{...}";
               parsed := Parsed (JObject [("status", JString "error");
                                          ("error", JString "parse error")]) |}.

End Coverage.

(** * Properties *)

(** ** Rounding and rendering of Numbers *)

Module JSNumberFacts.
Import JSNumber.

Lemma js_round_small z : Z.abs z < two53 -> js_round z = z.
Proof.
  intros H. unfold js_round.
  destruct (Z.ltb_spec (Z.abs z) two53); [reflexivity | lia].
Qed.

Lemma js_round_opp z : js_round (- z) = - js_round z.
Proof.
  unfold js_round. rewrite Z.abs_opp, Z.sgn_opp.
  destruct (Z.abs z <? two53); lia.
Qed.

(** The rounding of a positive integer, as a quotient and a remainder. *)
Lemma js_round_pos_cases z :
  two53 <= z ->
  let e := Z.log2 z - 52 in
  exists q r q',
    z = q * 2 ^ e + r /\ 0 <= r < 2 ^ e /\ 2 ^ 52 <= q /\ 1 <= e /\
    js_round z = q' * 2 ^ e /\
    (q' = q /\ 2 * r <= 2 ^ e \/ q' = q + 1 /\ 2 ^ e <= 2 * r).
Proof.
  intros Hz e. unfold two53 in Hz.
  assert (Hpos : 0 < z) by lia.
  assert (Hlog : 53 <= Z.log2 z) by (apply Z.log2_le_pow2; lia).
  assert (He : 1 <= e) by (unfold e; lia).
  destruct (Z.log2_spec z Hpos) as [Hlo Hhi].
  assert (Hsplit : 2 ^ Z.log2 z = 2 ^ 52 * 2 ^ e).
  { unfold e. rewrite <- Z.pow_add_r by lia. f_equal. lia. }
  assert (Hp : 0 < 2 ^ e) by (apply Z.pow_pos_nonneg; lia).
  assert (Hhalf : 2 ^ e = 2 * 2 ^ (e - 1)).
  { replace e with (1 + (e - 1)) at 1 by lia. rewrite Z.pow_add_r by lia. reflexivity. }
  exists (z / 2 ^ e), (z mod 2 ^ e).
  pose proof (Z.div_mod z (2 ^ e) ltac:(lia)) as Hdm.
  pose proof (Z.mod_pos_bound z (2 ^ e) Hp) as Hr.
  assert (Hq : 2 ^ 52 <= z / 2 ^ e).
  { apply Z.div_le_lower_bound; lia. }
  unfold js_round.
  rewrite Z.abs_eq by lia.
  destruct (Z.ltb_spec z two53); [unfold two53 in *; lia |].
  fold e. rewrite Z.sgn_pos by lia.
  rewrite Z.shiftr_div_pow2, Z.land_ones, Z.shiftl_1_l by lia.
  set (q := z / 2 ^ e) in *. set (r := z mod 2 ^ e) in *.
  destruct (Z.ltb_spec r (2 ^ (e - 1))).
  - exists q. rewrite Z.shiftl_mul_pow2 by lia. repeat split; try lia.
  - destruct (Z.ltb_spec (2 ^ (e - 1)) r).
    + exists (q + 1). rewrite Z.shiftl_mul_pow2 by lia. repeat split; try lia.
    + destruct (Z.even q).
      * exists q. rewrite Z.shiftl_mul_pow2 by lia. repeat split; try lia.
      * exists (q + 1). rewrite Z.shiftl_mul_pow2 by lia. repeat split; try lia.
Qed.

(** Rounding never crosses a power of two from above. *)
Lemma js_round_ge_pow2 z k : 53 <= k -> 2 ^ k <= z -> 2 ^ k <= js_round z.
Proof.
  intros Hk Hz.
  assert (H53 : two53 <= z).
  { unfold two53. pose proof (Z.pow_le_mono_r 2 53 k ltac:(lia) Hk). lia. }
  destruct (js_round_pos_cases z H53) as (q & r & q' & Hzq & Hr & Hq & He & Hres & Hq').
  assert (Hlog : k <= Z.log2 z) by (apply Z.log2_le_pow2; lia).
  rewrite Hres.
  assert (Hsplit : 2 ^ Z.log2 z = 2 ^ 52 * 2 ^ (Z.log2 z - 52)).
  { rewrite <- Z.pow_add_r by lia. f_equal. lia. }
  pose proof (Z.pow_le_mono_r 2 k (Z.log2 z) ltac:(lia) Hlog).
  assert (0 < 2 ^ (Z.log2 z - 52)) by (apply Z.pow_pos_nonneg; lia).
  nia.
Qed.

(** Below [2 ^ 71] a rounding moves an integer by at most [2 ^ 17]. *)
Lemma js_round_error z : Z.abs z < 2 ^ 71 -> Z.abs (js_round z - z) <= 2 ^ 17.
Proof.
  assert (Hposcase : forall y, 0 <= y < 2 ^ 71 -> Z.abs (js_round y - y) <= 2 ^ 17).
  { intros y Hy. destruct (Z.lt_ge_cases y two53) as [Hs | Hb].
    - rewrite js_round_small by lia. rewrite Z.sub_diag. simpl. lia.
    - destruct (js_round_pos_cases y Hb) as (q & r & q' & Hzq & Hr & Hq & He & Hres & Hq').
      assert (Hlog : Z.log2 y < 71) by (apply Z.log2_lt_pow2; unfold two53 in *; lia).
      assert (Hp : 2 ^ (Z.log2 y - 52) <= 2 ^ 18) by (apply Z.pow_le_mono_r; lia).
      rewrite Hres. change (2 ^ 18) with (2 * 2 ^ 17) in Hp. lia. }
  intros Hz. destruct (Z.le_gt_cases 0 z) as [H0 | H0].
  - apply Hposcase. lia.
  - replace (js_round z - z) with (- (js_round (- z) - - z)) by (rewrite js_round_opp; lia).
    rewrite Z.abs_opp. apply Hposcase. lia.
Qed.

(** Two multiples of a million with the same rounding are equal. *)
Lemma same_rounding_million S T :
  0 < T < 10 ^ 21 -> 0 < S ->
  (1000000 | S) -> (1000000 | T) ->
  js_round S = js_round T -> S = T.
Proof.
  intros HT HS [s Hs] [t Ht] Heq.
  assert (HTe : Z.abs (js_round T - T) <= 2 ^ 17) by (apply js_round_error; lia).
  destruct (Z.lt_ge_cases S (2 ^ 71)) as [Hlt | Hge].
  - assert (HSe : Z.abs (js_round S - S) <= 2 ^ 17) by (apply js_round_error; lia).
    rewrite Heq in HSe. change (2 ^ 17) with 131072 in *. lia.
  - pose proof (js_round_ge_pow2 S 71 ltac:(lia) Hge) as Hbig.
    rewrite Heq in Hbig. change (2 ^ 17) with 131072 in *.
    change (2 ^ 71) with 2361183241434822606848 in *.
    change (10 ^ 21) with 1000000000000000000000 in *. lia.
Qed.

Lemma shortest_from_million j T :
  0 < T < 10 ^ 21 -> (1000000 | T) -> (6 <= j)%nat ->
  shortest_from j (js_round T) = T.
Proof.
  intros HT Hdiv. set (x := js_round T).
  assert (HTe : Z.abs (x - T) <= 2 ^ 17) by (apply js_round_error; lia).
  change (2 ^ 17) with 131072 in HTe.
  assert (HT6 : 1000000 <= T) by (destruct Hdiv as [t Ht]; lia).
  assert (Hx : 0 < x) by lia.
  induction j as [|j IH]; intros Hj; [lia |].
  cbn [shortest_from].
  set (p := 10 ^ Z.of_nat (S j)).
  assert (Hp : (1000000 | p)).
  { exists (10 ^ (Z.of_nat (S j) - 6)). unfold p.
    change 1000000 with (10 ^ 6). rewrite <- Z.pow_add_r by lia. f_equal. lia. }
  assert (Hp0 : 0 < p) by (apply Z.pow_pos_nonneg; lia).
  set (lo := x / p * p).
  assert (Hlo : (1000000 | lo)) by (apply Z.divide_mul_r; exact Hp).
  assert (Hhi : (1000000 | lo + p)) by (apply Z.divide_add_r; assumption).
  pose proof (Z.div_mod x p ltac:(lia)) as Hdm.
  pose proof (Z.mod_pos_bound x p Hp0) as Hmod.
  assert (Hlox : lo <= x < lo + p) by (unfold lo; lia).
  assert (Hlo0 : 0 <= lo) by (unfold lo; apply Z.mul_nonneg_nonneg; [apply Z.div_pos|]; lia).
  assert (Flo : 0 < lo -> js_round lo = x -> lo = T).
  { intros. apply same_rounding_million; auto. }
  assert (Fhi : js_round (lo + p) = x -> lo + p = T).
  { intros. apply same_rounding_million; auto. lia. }
  destruct (Z.ltb_spec 0 lo) as [Hl0 | Hl0]; cbn [andb];
  destruct (Z.eqb_spec (js_round lo) x) as [Hl | Hl]; cbn [andb];
  destruct (Z.eqb_spec (js_round (lo + p)) x) as [Hh | Hh]; cbn [andb];
    try (specialize (Flo Hl0 Hl)); try (specialize (Fhi Hh)); try lia.
  all: try (destruct (_ <? _); [lia | destruct (_ <? _); [lia | destruct (Z.even _); lia]]).
  all: destruct (Nat.eq_dec j 5%nat) as [-> | Hne]; [ | apply IH; lia ].
  all: exfalso; destruct Hdiv as [t Ht].
  all: assert (Hp6 : p = 1000000) by reflexivity.
  all: destruct Hlo as [k Hk].
  all: assert (Hcase : lo = T \/ lo + p = T) by lia.
  all: destruct Hcase as [Hc | Hc]; try lia.
  all: try (apply Hl; rewrite Hc; reflexivity).
  all: try (apply Hh; rewrite Hc; reflexivity).
Qed.

Lemma decimal_opp p : decimal (Z.neg p) = "-" +:+ decimal (Z.pos p).
Proof. reflexivity. Qed.

Lemma toString_pos_million T :
  0 < T < 10 ^ 21 -> (1000000 | T) ->
  toString_pos (js_round T) = decimal T.
Proof.
  intros HT Hdiv. unfold toString_pos, shortest.
  assert (HTe : Z.abs (js_round T - T) <= 2 ^ 17) by (apply js_round_error; lia).
  change (2 ^ 17) with 131072 in HTe.
  assert (HT6 : 1000000 <= T) by (destruct Hdiv as [t Ht]; lia).
  assert (Hlog : 6 <= Z.log2 (js_round T)).
  { apply Z.log2_le_pow2; [lia |]. change (2 ^ 6) with 64. lia. }
  rewrite shortest_from_million by (auto; lia).
  destruct (Z.ltb_spec T (10 ^ 21)); [reflexivity | lia].
Qed.

(** For a millisecond count of at most fifteen digits, the string of
    [ms * 1000000] shows the exact product. *)
Lemma Number_toString_mul_million ms :
  Z.abs ms < 10 ^ 15 ->
  Number_toString (js_mul ms 1000000) = decimal (ms * 1000000).
Proof.
  intros Hms. unfold js_mul.
  assert (Hpos : forall t, 0 < t < 10 ^ 15 ->
            Number_toString (js_round (t * 1000000)) = decimal (t * 1000000)).
  { intros t Ht.
    assert (HT : 0 < t * 1000000 < 10 ^ 21).
    { change (10 ^ 21) with (10 ^ 15 * 1000000). lia. }
    assert (HTe : Z.abs (js_round (t * 1000000) - t * 1000000) <= 2 ^ 17)
      by (apply js_round_error; lia).
    change (2 ^ 17) with 131072 in HTe.
    unfold Number_toString.
    destruct (Z.eqb_spec (js_round (t * 1000000)) 0); [lia |].
    destruct (Z.ltb_spec (js_round (t * 1000000)) 0); [lia |].
    apply toString_pos_million; [exact HT | exists t; reflexivity]. }
  destruct (Z.lt_trichotomy ms 0) as [Hn | [-> | Hp]].
  - replace (ms * 1000000) with (- (- ms * 1000000)) by lia.
    rewrite js_round_opp.
    specialize (Hpos (- ms) ltac:(lia)).
    assert (HT : 0 < - ms * 1000000) by lia.
    assert (HTe : Z.abs (js_round (- ms * 1000000) - - ms * 1000000) <= 2 ^ 17).
    { apply js_round_error. change (2 ^ 71) with (2361183241434822606848).
      change (10 ^ 15) with 1000000000000000 in Hms. lia. }
    change (2 ^ 17) with 131072 in HTe.
    unfold Number_toString in *.
    destruct (Z.eqb_spec (js_round (- ms * 1000000)) 0); [lia |].
    destruct (Z.ltb_spec (js_round (- ms * 1000000)) 0); [lia |].
    destruct (Z.eqb_spec (- js_round (- ms * 1000000)) 0); [lia |].
    destruct (Z.ltb_spec (- js_round (- ms * 1000000)) 0); [| lia].
    rewrite Z.opp_involutive, Hpos.
    destruct (- ms * 1000000) eqn:E; try lia. reflexivity.
  - reflexivity.
  - apply Hpos. lia.
Qed.

End JSNumberFacts.

(** ** The record builder *)

Module BuilderFacts.
Import JSNumber JSRuntime Builder JSNumberFacts Spec Scenarios.

Lemma Date_toISOString_valid ms :
  valid_time ms = true -> exists iso, Date_toISOString ms = Some iso.
Proof.
  intros H. unfold Date_toISOString. rewrite H.
  destruct (civil_from_days _) as [[y m] d]. eauto.
Qed.

Lemma valid_time_of_15_digits ms : Z.abs ms < 10 ^ 15 -> valid_time ms = true.
Proof.
  intros H. unfold valid_time, max_time_value.
  apply Z.leb_le. change (10 ^ 15) with 1000000000000000 in H. lia.
Qed.

(** The stamp of a built entry is the string of [timestamp * 1000000]. *)
Lemma prepareLogEntry_timestampNanos sn t e :
  prepareLogEntry sn t = Return e ->
  timestampNanos e = Some (Number_toString (js_mul (timestamp t) 1000000)).
Proof.
  unfold prepareLogEntry. destruct (Date_toISOString _); [| discriminate].
  intros [= <-]. reflexivity.
Qed.

Lemma prepareLogEntry_returns sn t :
  valid_time (timestamp t) = true -> exists e, prepareLogEntry sn t = Return e.
Proof.
  intros H. destruct (Date_toISOString_valid _ H) as [iso Hiso].
  unfold prepareLogEntry. rewrite Hiso. eauto.
Qed.

Lemma prepareLogEntry_throws sn t :
  valid_time (timestamp t) = false ->
  prepareLogEntry sn t = Throw (RangeError "Invalid time value").
Proof.
  intros H. unfold prepareLogEntry, Date_toISOString. rewrite H. reflexivity.
Qed.

(** C1 (as stated) fails: a turn stamped 1705312200 gets the stamp
    1705312200000000, the product by [10 ^ 6], and not the product by
    [10 ^ 9] the specification asks for. *)
Lemma C1_counterexample :
  exists e,
    prepareLogEntry "zaralive-transcripts" (plain_turn 1705312200) = Return e /\
    timestampNanos e = Some "1705312200000000" /\
    timestampNanos e <> Some (nanos_of_seconds 1705312200).
Proof.
  eexists. split; [vm_compute; reflexivity |].
  split; [reflexivity | vm_compute; discriminate].
Qed.

(** C1 (amended): for every turn whose timestamp has at most fifteen digits,
    the built entry carries, as its stamp, the exact decimal of the timestamp
    multiplied by [10 ^ 6]: the timestamp is read as milliseconds, and no
    rounding of the Number shows in the string. *)
Theorem C1_timestamp_nanos sn t :
  Z.abs (timestamp t) < 10 ^ 15 ->
  exists e,
    prepareLogEntry sn t = Return e /\
    timestampNanos e = Some (decimal (timestamp t * 1000000)).
Proof.
  intros H.
  destruct (prepareLogEntry_returns sn t (valid_time_of_15_digits _ H)) as [e He].
  exists e. split; [exact He |].
  rewrite (prepareLogEntry_timestampNanos _ _ _ He).
  f_equal. apply Number_toString_mul_million. exact H.
Qed.

(** C1 (amended), at the turn of the documentation (milliseconds) and at a
    turn stamped in seconds. *)
Lemma C1_timestamp_nanos_witness :
  (Z.abs 1705312200000 < 10 ^ 15 /\
   exists e,
     prepareLogEntry "zaralive-transcripts" (plain_turn 1705312200000) = Return e /\
     timestampNanos e = Some "1705312200000000000") /\
  (Z.abs 1705312200 < 10 ^ 15 /\
   exists e,
     prepareLogEntry "zaralive-transcripts" (plain_turn 1705312200) = Return e /\
     timestampNanos e = Some "1705312200000000").
Proof.
  split; (split; [reflexivity |]).
  - exact (C1_timestamp_nanos "zaralive-transcripts" (plain_turn 1705312200000)
             ltac:(reflexivity)).
  - exact (C1_timestamp_nanos "zaralive-transcripts" (plain_turn 1705312200)
             ltac:(reflexivity)).
Defined.

(** Sixteen digits are too many: the product is then printed with an
    exponent, or rounded. *)
Remark timestampNanos_beyond_15_digits :
  Number_toString (js_mul (10 ^ 15) 1000000) = "1e+21" /\
  Number_toString (js_mul 8640000000000001 1000000) = "8.640000000000001e+21" /\
  js_mul 1705312200001 1000000 = 1705312200000999936.
Proof. vm_compute. auto. Qed.

(** A non-empty list of flags is joined in its order: the first flag, then
    a comma and the join of the others. *)
Lemma join_comma_cons f fs :
  join_comma (f :: fs) =
    match fs with [] => f | _ :: _ => f +:+ "," +:+ join_comma fs end.
Proof. destruct fs; reflexivity. Qed.

(** The [safety_flags] label of a built entry. *)
Lemma prepareLogEntry_safety_flags sn t e lbl :
  prepareLogEntry sn t = Return e -> labels e = Some lbl ->
  safety_flags lbl =
    match flags_of t with [] => "none" | _ :: _ => join_comma (flags_of t) end.
Proof.
  unfold prepareLogEntry. destruct (Date_toISOString _); [| discriminate].
  intros [= <-] [= <-]. cbn. unfold flags_of, opt_field.
  destruct (metadata t) as [m |]; [| reflexivity].
  destruct (safetyFlags m) as [[| f fs] |]; reflexivity.
Qed.

(** C8 (as stated) fails: for a turn whose only flag is the string [none]
    the label reads [none] although the list of flags is neither empty nor
    absent, so [none] is not the label of the empty and absent lists alone. *)
Lemma C8_counterexample :
  exists e lbl,
    prepareLogEntry "zaralive-transcripts" (flagged_turn ["none"]) = Return e /\
    labels e = Some lbl /\
    safety_flags lbl = "none" /\
    flags_of (flagged_turn ["none"]) = ["none"] /\
    ~ safety_label_rule (flagged_turn ["none"]) (safety_flags lbl).
Proof.
  eexists _, _. split; [vm_compute; reflexivity |].
  split; [reflexivity |]. split; [reflexivity |]. split; [reflexivity |].
  intros [[Hnone _] _]. specialize (Hnone eq_refl). discriminate Hnone.
Qed.

(** C8 (amended): a turn with a valid time always builds; without metadata
    and context the four optional labels read [unknown] and [safety_flags]
    reads [none]; in general [safety_flags] is [none] whenever the list of
    flags is empty or absent, and otherwise the flags joined by commas in
    their order, so that it reads [none] only for an empty or absent list
    and for flags whose join itself spells [none]. *)
Theorem C8_default_labels sn t :
  valid_time (timestamp t) = true ->
  exists e lbl,
    prepareLogEntry sn t = Return e /\ labels e = Some lbl /\
    (metadata t = None -> context t = None ->
       vocabulary_complexity lbl = "unknown" /\
       grammar_complexity lbl = "unknown" /\
       conversation_flow lbl = "unknown" /\
       user_intent lbl = "unknown" /\
       safety_flags lbl = "none") /\
    (flags_of t = [] -> safety_flags lbl = "none") /\
    (forall f fs, flags_of t = f :: fs ->
       safety_flags lbl = join_comma (f :: fs) /\
       safety_flags lbl =
         match fs with [] => f | _ :: _ => f +:+ "," +:+ join_comma fs end) /\
    (safety_flags lbl = "none" <->
       flags_of t = [] \/ join_comma (flags_of t) = "none").
Proof.
  intros H. destruct (prepareLogEntry_returns sn t H) as [e He].
  assert (Hl : exists lbl, labels e = Some lbl).
  { revert He. unfold prepareLogEntry.
    destruct (Date_toISOString _); [| discriminate]. intros [= <-]. cbn. eauto. }
  destruct Hl as [lbl Hl].
  pose proof (prepareLogEntry_safety_flags _ _ _ _ He Hl) as Hs.
  exists e, lbl. split; [exact He |]. split; [exact Hl |].
  split; [| split; [| split]].
  - intros Hm Hc. revert He Hl. unfold prepareLogEntry.
    destruct (Date_toISOString _); [| discriminate].
    rewrite Hm, Hc. intros [= <-] [= <-]. cbn. auto.
  - intros Hf. rewrite Hs, Hf. reflexivity.
  - intros f fs Hf. rewrite Hs, Hf. split; [reflexivity | apply join_comma_cons].
  - rewrite Hs. destruct (flags_of t) as [| f fs] eqn:Hf.
    + split; auto.
    + split; [intros Hn; right; exact Hn |].
      intros [Hn | Hn]; [discriminate Hn | exact Hn].
Qed.

(** The label of the content length, for the thirteen characters of
    [Hello, world!]. *)
Remark content_length_example :
  option_map content_length
    (match prepareLogEntry "zaralive-transcripts" (plain_turn 1705312200000) with
     | Return e => labels e
     | Throw _ => None
     end) = Some "13".
Proof. reflexivity. Qed.

(** C8 (amended), at a turn without metadata and context, at a turn with two
    flags, and at a turn whose list of flags is empty. *)
Lemma C8_default_labels_witness :
  (exists e lbl,
     prepareLogEntry "zaralive-transcripts" (plain_turn 1705312200000) = Return e /\
     labels e = Some lbl /\
     vocabulary_complexity lbl = "unknown" /\
     grammar_complexity lbl = "unknown" /\
     conversation_flow lbl = "unknown" /\
     user_intent lbl = "unknown" /\
     safety_flags lbl = "none") /\
  (exists e lbl,
     prepareLogEntry "zaralive-transcripts" (flagged_turn ["pii"; "self_harm"])
       = Return e /\
     labels e = Some lbl /\
     safety_flags lbl = "pii,self_harm") /\
  (exists e lbl,
     prepareLogEntry "zaralive-transcripts" (flagged_turn []) = Return e /\
     labels e = Some lbl /\
     safety_flags lbl = "none").
Proof.
  split; [| split].
  - destruct (C8_default_labels "zaralive-transcripts" (plain_turn 1705312200000)
                eq_refl) as (e & lbl & He & Hl & Hd & _).
    exists e, lbl. split; [exact He |]. split; [exact Hl |].
    exact (Hd eq_refl eq_refl).
  - destruct (C8_default_labels "zaralive-transcripts"
                (flagged_turn ["pii"; "self_harm"]) eq_refl)
      as (e & lbl & He & Hl & _ & _ & Hj & _).
    exists e, lbl. split; [exact He |]. split; [exact Hl |].
    exact (proj2 (Hj "pii" ["self_harm"] eq_refl)).
  - destruct (C8_default_labels "zaralive-transcripts" (flagged_turn []) eq_refl)
      as (e & lbl & He & Hl & _ & He0 & _).
    exists e, lbl. split; [exact He |]. split; [exact Hl |].
    exact (He0 eq_refl).
Defined.

End BuilderFacts.

(** ** Relations every method respects *)

Create HintDb preserve.

Module Effects.
Import Builder JSValue Logger Runs.

(** Relations between the world before and the world after a call that every
  primitive effect respects are respected by every method. *)
Section Preservation.
Variable I : World -> World -> Prop.
Variable P : nat -> Prop.
Hypothesis I_refl : forall w, I w w.
Hypothesis I_trans : forall a b c, I a b -> I b c -> I a c.
Hypothesis I_tick : forall w, I w (tick w).
Hypothesis I_send : forall req w, I w (send req w).
Hypothesis I_update : forall this o m w,
  P this -> store w !! this = Some o ->
  I w (set_store (insert this {| lokiEndpoint := lokiEndpoint o;
                                 serviceName := serviceName o;
                                 enabled := enabled o;
                                 metrics := m |}) w).

Lemma preserves_ret {A} (a : A) : preserves I (ret a).
Proof. intros w. apply I_refl. Qed.

Lemma preserves_throw {A} e : preserves I (@throw A e).
Proof. intros w. apply I_refl. Qed.

Lemma preserves_lift {A} (o : Outcome A) : preserves I (lift o).
Proof. intros w. apply I_refl. Qed.

Lemma preserves_bind {A B} (m : M A) (k : A -> M B) :
  preserves I m -> (forall a, preserves I (k a)) -> preserves I (bind m k).
Proof.
  intros Hm Hk w. unfold bind. specialize (Hm w).
  destruct (m w) as [[a | e] w']; cbn in *; [| exact Hm].
  eapply I_trans; [exact Hm | apply Hk].
Qed.

Lemma preserves_try_catch {A} (m : M A) (h : JSError -> M A) :
  preserves I m -> (forall e, preserves I (h e)) -> preserves I (try_catch m h).
Proof.
  intros Hm Hh w. unfold try_catch. specialize (Hm w).
  destruct (m w) as [[a | e] w']; cbn in *; [exact Hm |].
  eapply I_trans; [exact Hm | apply Hh].
Qed.

Lemma preserves_settle {A} (m : M A) : preserves I m -> preserves I (settle m).
Proof.
  intros Hm w. unfold settle. specialize (Hm w).
  destruct (m w) as [r w']; exact Hm.
Qed.

Lemma preserves_Date_now : preserves I Date_now.
Proof. intros w. apply I_tick. Qed.

Lemma preserves_http_request req : preserves I (http_request req).
Proof. intros w. apply I_send. Qed.

Lemma preserves_read_this this : preserves I (read_this this).
Proof. intros w. unfold read_this. destruct (store w !! this); apply I_refl. Qed.

Lemma preserves_update_metrics_of this f :
  P this -> preserves I (update_metrics_of this f).
Proof.
  intros HP w. unfold update_metrics_of, bind, read_this.
  destruct (store w !! this) as [o |] eqn:Ho; cbn; [| apply I_refl].
  apply I_update; assumption.
Qed.

Hint Resolve preserves_ret preserves_throw preserves_lift preserves_Date_now
  preserves_http_request preserves_read_this preserves_update_metrics_of
  preserves_settle : preserve.

Ltac preserve :=
  repeat first
    [ solve [auto with preserve]
    | apply preserves_bind; [| intros ?]
    | apply preserves_try_catch; [| intros ?]
    | match goal with
      | |- preserves I (match ?x with _ => _ end) => destruct x
      | |- preserves I (if ?x then _ else _) => destruct x
      | |- preserves I (let '(_, _) := ?x in _) => destruct x
      end ].

Lemma preserves_sendToLoki logEntry : preserves I (sendToLoki logEntry).
Proof. unfold sendToLoki. preserve. Qed.

Lemma preserves_updateMetrics this transcript status :
  P this -> preserves I (updateMetrics this transcript status).
Proof. intros HP. unfold updateMetrics. preserve. Qed.

Lemma preserves_getMetrics this : preserves I (getMetrics this).
Proof. unfold getMetrics. preserve. Qed.

Lemma preserves_logTranscript this transcript :
  P this -> preserves I (logTranscript this transcript).
Proof.
  intros HP. unfold logTranscript.
  pose proof preserves_sendToLoki. pose proof (preserves_updateMetrics this).
  preserve.
Qed.

Lemma preserves_logTranscripts_loop this transcripts :
  P this -> forall results, preserves I (logTranscripts_loop this transcripts results).
Proof.
  intros HP. pose proof (preserves_logTranscript this) as Hlog.
  induction transcripts as [| t rest IH]; intros results; cbn [logTranscripts_loop].
  - apply preserves_ret.
  - preserve.
Qed.

Lemma preserves_logTranscripts this transcripts :
  P this -> preserves I (logTranscripts this transcripts).
Proof. intros HP. apply preserves_logTranscripts_loop, HP. Qed.

Lemma preserves_num_or v d : preserves I d -> preserves I (num_or v d).
Proof. intros Hd. unfold num_or. preserve. Qed.

Lemma preserves_searchTranscripts query s e :
  preserves I (searchTranscripts query s e).
Proof.
  unfold searchTranscripts.
  apply preserves_bind; [apply preserves_num_or; preserve | intros ?].
  apply preserves_bind; [apply preserves_num_or; preserve | intros ?].
  preserve.
Qed.

Lemma preserves_Promise_all2 {A B} (a : M A) (b : M B) :
  preserves I a -> preserves I b -> preserves I (Promise_all2 a b).
Proof. intros Ha Hb. unfold Promise_all2. preserve. Qed.

Lemma preserves_toISOString ms : preserves I (toISOString ms).
Proof. unfold toISOString. preserve. Qed.

Lemma preserves_getTranscriptStats this timeRange :
  preserves I (getTranscriptStats this timeRange).
Proof.
  unfold getTranscriptStats.
  pose proof preserves_searchTranscripts. pose proof preserves_toISOString.
  apply preserves_bind; [preserve | intros end_].
  apply preserves_try_catch; [| intros ?; preserve].
  apply preserves_bind; [preserve | intros o].
  apply preserves_bind; [apply preserves_Promise_all2; auto | intros [u z]].
  preserve.
Qed.

End Preservation.

End Effects.

(** ** Pushes *)

Module PushFacts.
Import JSNumber JSRuntime Builder JSValue Logger Runs Scenarios.

Lemma logTranscript_disabled this o transcript w :
  store w !! this = Some o -> enabled o = false ->
  logTranscript this transcript w = (Return tt, w).
Proof.
  intros Ho He. unfold logTranscript, bind, read_this. rewrite Ho, He. reflexivity.
Qed.

Lemma World_eq (w1 w2 : World) :
  store w1 = store w2 -> clock w1 = clock w2 -> clock_reads w1 = clock_reads w2 ->
  backend w1 = backend w2 -> requests w1 = requests w2 -> w1 = w2.
Proof. destruct w1, w2; cbn; intros; subst; reflexivity. Qed.

Lemma run_bind_return {A B} (m : M A) (k : A -> M B) w a w' :
  m w = (Return a, w') -> bind m k w = k a w'.
Proof. intros H. unfold bind. rewrite H. reflexivity. Qed.

Lemma run_bind_throw {A B} (m : M A) (k : A -> M B) w e w' :
  m w = (Throw e, w') -> bind m k w = (Throw e, w').
Proof. intros H. unfold bind. rewrite H. reflexivity. Qed.

Lemma run_read_this this o w :
  store w !! this = Some o -> read_this this w = (Return o, w).
Proof. intros H. unfold read_this. rewrite H. reflexivity. Qed.

Lemma run_update_metrics_of this o f w :
  store w !! this = Some o ->
  update_metrics_of this f w =
    (Return tt, set_store (insert this (with_metrics o (f (metrics o)))) w).
Proof.
  intros H. unfold update_metrics_of.
  erewrite run_bind_return by (apply run_read_this; exact H). reflexivity.
Qed.

Lemma run_sendToLoki logEntry w :
  let reply := backend w (length (requests w)) (push_request logEntry) in
  sendToLoki logEntry w =
    (match reply with
     | Responded res =>
         if success_status (statusCode res) then Return (data res)
         else Throw (push_error reply)
     | TransportFailure _ => Throw (push_error reply)
     end, send (push_request logEntry) w).
Proof.
  intros reply. unfold sendToLoki.
  erewrite run_bind_return by reflexivity. fold (push_request logEntry). fold reply.
  destruct reply as [message | res]; [reflexivity |].
  unfold success_status. cbn [push_error].
  destruct ((200 <=? statusCode res) && (statusCode res <? 300)); reflexivity.
Qed.

Lemma run_updateMetrics_success this o transcript w :
  store w !! this = Some o ->
  updateMetrics this transcript "success" w =
    (Return tt,
     {| store := <[this := counted_success o (clock w (clock_reads w))]> (store w);
        clock := clock w; clock_reads := S (clock_reads w);
        backend := backend w; requests := requests w |}).
Proof.
  intros Ho. unfold updateMetrics. cbn [String.eqb Ascii.eqb Bool.eqb].
  erewrite run_bind_return by (apply run_update_metrics_of; exact Ho).
  erewrite run_bind_return by reflexivity.
  erewrite run_update_metrics_of by (cbn; apply lookup_insert_eq).
  f_equal. apply World_eq; cbn; try reflexivity.
  apply insert_insert_eq.
Qed.

Lemma run_updateMetrics_error this o transcript w :
  store w !! this = Some o ->
  updateMetrics this transcript "error" w =
    (Return tt,
     {| store := <[this := counted_error o]> (store w);
        clock := clock w; clock_reads := clock_reads w;
        backend := backend w; requests := requests w |}).
Proof.
  intros Ho. unfold updateMetrics. cbn [String.eqb Ascii.eqb Bool.eqb].
  erewrite run_update_metrics_of by exact Ho. reflexivity.
Qed.

(** A push on an enabled instance, for a transcript that builds. *)
Lemma logTranscript_enabled this o transcript logEntry w :
  store w !! this = Some o -> enabled o = true ->
  prepareLogEntry (serviceName o) transcript = Return logEntry ->
  let req := push_request logEntry in
  let reply := backend w (length (requests w)) req in
  logTranscript this transcript w =
    if accepted reply then (Return tt, pushed_ok this o req w)
    else (Throw (push_error reply), pushed_failed this o req w).
Proof.
  intros Ho He Hb req reply.
  unfold logTranscript.
  erewrite run_bind_return by (apply run_read_this; exact Ho).
  rewrite He. cbn [negb]. unfold try_catch. rewrite Hb.
  erewrite (run_bind_return (lift (Return logEntry))) by reflexivity.
  assert (Hs : store (send req w) !! this = Some o) by exact Ho.
  pose proof (run_sendToLoki logEntry w) as Hsend. cbn zeta in Hsend.
  fold req in Hsend. fold reply in Hsend.
  destruct reply as [message | res] eqn:Hr; cbn [accepted].
  - erewrite run_bind_throw by exact Hsend.
    erewrite run_bind_return by (apply run_updateMetrics_error; exact Hs).
    reflexivity.
  - destruct (success_status (statusCode res)).
    + erewrite run_bind_return by exact Hsend.
      erewrite run_updateMetrics_success by exact Hs. reflexivity.
    + erewrite run_bind_throw by exact Hsend.
      erewrite run_bind_return by (apply run_updateMetrics_error; exact Hs).
      reflexivity.
Qed.

(** A push on an enabled instance, for a transcript whose time is invalid:
    nothing is sent, and the failure is counted. *)
Lemma logTranscript_unbuildable this o transcript e w :
  store w !! this = Some o -> enabled o = true ->
  prepareLogEntry (serviceName o) transcript = Throw e ->
  logTranscript this transcript w =
    (Throw e,
     {| store := <[this := counted_error o]> (store w);
        clock := clock w; clock_reads := clock_reads w;
        backend := backend w; requests := requests w |}).
Proof.
  intros Ho He Hb. unfold logTranscript.
  erewrite run_bind_return by (apply run_read_this; exact Ho).
  rewrite He. cbn [negb]. unfold try_catch. rewrite Hb.
  erewrite (run_bind_throw (lift (Throw e))) by reflexivity.
  erewrite run_bind_return by (apply run_updateMetrics_error; exact Ho).
  reflexivity.
Qed.

Lemma run_getMetrics this o w :
  store w !! this = Some o ->
  getMetrics this w =
    (Return {| transcript_entries_total := transcriptEntriesTotal (metrics o);
               transcript_errors_total := transcriptErrorsTotal (metrics o);
               last_transcript_timestamp := lastTranscriptTimestamp (metrics o) |}, w).
Proof.
  intros Ho. unfold getMetrics.
  erewrite run_bind_return by (apply run_read_this; exact Ho). reflexivity.
Qed.

(** C5: a push on an enabled instance sends one request; on a 2xx reply it
    succeeds, [transcriptEntriesTotal] grows by one and
    [lastTranscriptTimestamp] is the reading of the clock; on any other
    status, or when the transport fails, it throws an error whose message
    carries the status and the body (or the transport's message),
    [transcriptErrorsTotal] grows by one and the other two counters stay. *)
Theorem C5_push_outcome this o transcript logEntry w :
  store w !! this = Some o -> enabled o = true ->
  prepareLogEntry (serviceName o) transcript = Return logEntry ->
  let reply := backend w (length (requests w)) (POST "/loki/api/v1/push" logEntry) in
  let r := fst (logTranscript this transcript w) in
  let w' := snd (logTranscript this transcript w) in
  let m := metrics o in
  requests w' = (requests w ++ [POST "/loki/api/v1/push" logEntry])%list /\
  match reply with
  | Responded res =>
      if (200 <=? statusCode res) && (statusCode res <? 300) then
        r = Return tt /\
        fst (getMetrics this w') =
          Return {| transcript_entries_total := transcriptEntriesTotal m + 1;
                    transcript_errors_total := transcriptErrorsTotal m;
                    last_transcript_timestamp := Some (clock w (clock_reads w)) |}
      else
        r = Throw (Error ("Loki responded with status "
                          +:+ Number_toString (statusCode res) +:+ ": " +:+ data res)) /\
        fst (getMetrics this w') =
          Return {| transcript_entries_total := transcriptEntriesTotal m;
                    transcript_errors_total := transcriptErrorsTotal m + 1;
                    last_transcript_timestamp := lastTranscriptTimestamp m |}
  | TransportFailure message =>
      r = Throw (Error ("Failed to send to Loki: " +:+ message)) /\
      fst (getMetrics this w') =
        Return {| transcript_entries_total := transcriptEntriesTotal m;
                  transcript_errors_total := transcriptErrorsTotal m + 1;
                  last_transcript_timestamp := lastTranscriptTimestamp m |}
  end.
Proof.
  intros Ho He Hb. cbn zeta.
  rewrite (logTranscript_enabled this o transcript logEntry w Ho He Hb).
  cbn zeta. unfold push_request.
  destruct (backend w _ _) as [message | res]; cbn [accepted push_error].
  - cbn [fst snd]. split; [reflexivity |]. split; [reflexivity |].
    erewrite run_getMetrics by (cbn; apply lookup_insert_eq). reflexivity.
  - unfold success_status.
    destruct ((200 <=? statusCode res) && (statusCode res <? 300)); cbn [fst snd].
    + split; [reflexivity |]. split; [reflexivity |].
      erewrite run_getMetrics by (cbn; apply lookup_insert_eq). reflexivity.
    + split; [reflexivity |]. split; [reflexivity |].
      erewrite run_getMetrics by (cbn; apply lookup_insert_eq). reflexivity.
Qed.

(** C5, at a first push that the backend accepts with 204. *)
Lemma C5_push_outcome_witness :
  let w := one_logger always_204 in
  let t := plain_turn 1705312200000 in
  fst (logTranscript 0 t w) = Return tt /\
  fst (getMetrics 0 (snd (logTranscript 0 t w))) =
    Return {| transcript_entries_total := 1; transcript_errors_total := 0;
              last_transcript_timestamp := Some 1705312200000 |}.
Proof.
  pose proof (C5_push_outcome 0 _ (plain_turn 1705312200000) _
                (one_logger always_204) eq_refl eq_refl eq_refl) as H.
  exact (proj2 H).
Defined.

Lemma attempts_length this transcripts w :
  length (fst (attempts this transcripts w)) = length transcripts.
Proof.
  revert w. induction transcripts as [| t rest IH]; intros w; [reflexivity |].
  cbn [attempts]. destruct (logTranscript this t w) as [r w1].
  specialize (IH w1). destruct (attempts this rest w1) as [rs w2].
  cbn in *. f_equal. exact IH.
Qed.

Lemma results_of_transcripts transcripts rs :
  length rs = length transcripts ->
  map r_transcript (results_of transcripts rs) = transcripts.
Proof.
  revert rs. induction transcripts as [| t rest IH]; intros [| r rs] H;
    try discriminate; [reflexivity |].
  cbn. f_equal; [destruct r; reflexivity | apply IH; cbn in H; lia].
Qed.

(** The loop pushes every transcript in turn, whatever the earlier pushes
    did, and appends one result for each. *)
Lemma logTranscripts_loop_attempts this transcripts :
  forall results w,
    logTranscripts_loop this transcripts results w =
      (Return (results ++ results_of transcripts (fst (attempts this transcripts w)))%list,
       snd (attempts this transcripts w)).
Proof.
  induction transcripts as [| t rest IH]; intros results w.
  - cbn. rewrite app_nil_r. reflexivity.
  - cbn [logTranscripts_loop attempts].
    unfold bind at 1, try_catch, bind at 1.
    destruct (logTranscript this t w) as [[[] | e] w1]; cbn [ret].
    + rewrite IH. destruct (attempts this rest w1) as [rs w2]. cbn.
      rewrite <- app_assoc. reflexivity.
    + rewrite IH. destruct (attempts this rest w1) as [rs w2]. cbn.
      rewrite <- app_assoc. reflexivity.
Qed.

(** C4: [logTranscripts] pushes every transcript, each in the world its
    predecessor left, and returns one result per transcript in the order of
    the input; for three transcripts of which the backend refuses the second
    only, the statuses read success, error, success,
    [transcriptEntriesTotal] has grown by two and [transcriptErrorsTotal] by
    one. *)
Theorem C4_batch_isolation :
  (forall this transcripts w,
     let outcomes := fst (attempts this transcripts w) in
     logTranscripts this transcripts w =
       (Return (results_of transcripts outcomes), snd (attempts this transcripts w)) /\
     length (results_of transcripts outcomes) = length transcripts /\
     map r_transcript (results_of transcripts outcomes) = transcripts) /\
  (forall this o t1 t2 t3 e1 e2 e3 w,
     store w !! this = Some o -> enabled o = true ->
     prepareLogEntry (serviceName o) t1 = Return e1 ->
     prepareLogEntry (serviceName o) t2 = Return e2 ->
     prepareLogEntry (serviceName o) t3 = Return e3 ->
     let n := length (requests w) in
     accepted (backend w n (push_request e1)) = true ->
     accepted (backend w (S n) (push_request e2)) = false ->
     accepted (backend w (S (S n)) (push_request e3)) = true ->
     exists results w',
       logTranscripts this [t1; t2; t3] w = (Return results, w') /\
       map r_transcript results = [t1; t2; t3] /\
       map r_status results = ["success"; "error"; "success"] /\
       fst (getMetrics this w') =
         Return {| transcript_entries_total := transcriptEntriesTotal (metrics o) + 2;
                   transcript_errors_total := transcriptErrorsTotal (metrics o) + 1;
                   last_transcript_timestamp := Some (clock w (S (clock_reads w))) |}).
Proof.
  split.
  - intros this transcripts w outcomes. subst outcomes.
    pose proof (attempts_length this transcripts w) as Hlen.
    pose proof (results_of_transcripts transcripts _ Hlen) as Hmap.
    split; [| split; [| exact Hmap]].
    + unfold logTranscripts. rewrite logTranscripts_loop_attempts. reflexivity.
    + rewrite <- (length_map r_transcript). f_equal. exact Hmap.
  - intros this o t1 t2 t3 e1 e2 e3 w Ho He H1 H2 H3 n A1 A2 A3.
    unfold logTranscripts. rewrite logTranscripts_loop_attempts.
    cbn [attempts].
    rewrite (logTranscript_enabled this o t1 e1 w Ho He H1). cbn zeta.
    fold n. rewrite A1.
    set (w1 := pushed_ok this o (push_request e1) w).
    set (o1 := counted_success o (clock w (clock_reads w))).
    assert (Ho1 : store w1 !! this = Some o1) by apply lookup_insert_eq.
    assert (Hn1 : length (requests w1) = S n).
    { cbn. rewrite length_app. cbn. unfold n. lia. }
    rewrite (logTranscript_enabled this o1 t2 e2 w1 Ho1 He H2). cbn zeta.
    rewrite Hn1. change (backend w1) with (backend w). rewrite A2.
    set (w2 := pushed_failed this o1 (push_request e2) w1).
    set (o2 := counted_error o1).
    assert (Ho2 : store w2 !! this = Some o2) by apply lookup_insert_eq.
    assert (Hn2 : length (requests w2) = S (S n)).
    { cbn [w2 pushed_failed requests]. rewrite length_app, Hn1. cbn. lia. }
    rewrite (logTranscript_enabled this o2 t3 e3 w2 Ho2 He H3). cbn zeta.
    rewrite Hn2. change (backend w2) with (backend w). rewrite A3.
    eexists _, _. split; [reflexivity |]. cbn [fst snd].
    split; [reflexivity |]. split; [reflexivity |].
    erewrite run_getMetrics by apply lookup_insert_eq.
    cbn. do 2 f_equal. lia.
Qed.

(** C4, at three turns of which the backend refuses the second. *)
Lemma C4_batch_isolation_witness :
  let w := one_logger rejects_second in
  exists results w',
    logTranscripts 0 [plain_turn 1; plain_turn 2; plain_turn 3] w = (Return results, w') /\
    map r_status results = ["success"; "error"; "success"] /\
    fst (getMetrics 0 w') =
      Return {| transcript_entries_total := 2; transcript_errors_total := 1;
                last_transcript_timestamp := Some 1705312200001 |}.
Proof.
  destruct (proj2 C4_batch_isolation 0%nat _ (plain_turn 1) (plain_turn 2) (plain_turn 3)
              _ _ _ (one_logger rejects_second)
              eq_refl eq_refl eq_refl eq_refl eq_refl eq_refl eq_refl eq_refl)
    as (results & w' & Hrun & _ & Hstatus & Hmetrics).
  exists results, w'. split; [exact Hrun |]. split; [exact Hstatus | exact Hmetrics].
Defined.

End PushFacts.

(** ** Instances *)

Module InstanceFacts.
Import JSNumber JSRuntime Builder JSValue Logger Runs Effects Scenarios PushFacts.

Lemma keeps_flag_refl l w : keeps_flag l w w.
Proof. intros o Ho. eauto. Qed.

Lemma keeps_flag_trans l a b c :
  keeps_flag l a b -> keeps_flag l b c -> keeps_flag l a c.
Proof.
  intros Hab Hbc o Ho. destruct (Hab o Ho) as (o1 & Ho1 & He1).
  destruct (Hbc o1 Ho1) as (o2 & Ho2 & He2). exists o2. split; congruence.
Qed.

Lemma keeps_flag_update l this o m w :
  store w !! this = Some o ->
  keeps_flag l w (set_store (insert this {| lokiEndpoint := lokiEndpoint o;
                                            serviceName := serviceName o;
                                            enabled := enabled o;
                                            metrics := m |}) w).
Proof.
  intros Ho o0 Ho0. cbn. destruct (decide (this = l)) as [-> | Hne].
  - rewrite lookup_insert_eq. eexists. split; [reflexivity |]. cbn. congruence.
  - rewrite lookup_insert_ne by exact Hne. eauto.
Qed.

Lemma leaves_update l this o m w :
  this <> l ->
  leaves l w (set_store (insert this {| lokiEndpoint := lokiEndpoint o;
                                        serviceName := serviceName o;
                                        enabled := enabled o;
                                        metrics := m |}) w).
Proof. intros Hne. unfold leaves. cbn. apply lookup_insert_ne, Hne. Qed.

(** The constructor allocates an object that was not there. *)
Lemma new_TranscriptLogger_fresh options w :
  exists this,
    fst (new_TranscriptLogger options w) = Return this /\
    store w !! this = None /\
    store (snd (new_TranscriptLogger options w)) !! this =
      Some {| lokiEndpoint := str_or (opt_lokiEndpoint options) "http://localhost:3100";
              serviceName := str_or (opt_serviceName options) "zaralive-transcripts";
              enabled := match opt_enabled options with Some false => false | _ => true end;
              metrics := {| transcriptEntriesTotal := 0; transcriptErrorsTotal := 0;
                            lastTranscriptTimestamp := None |} |}.
Proof.
  exists (fresh (dom (store w))). split; [reflexivity |]. split.
  - apply not_elem_of_dom, is_fresh.
  - cbn. apply lookup_insert_eq.
Qed.

Lemma keeps_flag_new l options w :
  keeps_flag l w (snd (new_TranscriptLogger options w)).
Proof.
  intros o Ho. cbn. exists o. split; [| reflexivity].
  rewrite lookup_insert_ne; [exact Ho |].
  intros Heq. pose proof (is_fresh (dom (store w))) as Hf.
  rewrite Heq in Hf. apply Hf, elem_of_dom. eauto.
Qed.

(** Every call keeps every instance and its flag. *)
Lemma exec_keeps_flag l c w : keeps_flag l w (exec c w).
Proof.
  pose proof (keeps_flag_refl l) as R. pose proof (keeps_flag_trans l) as T.
  assert (U : forall this o m w0, True -> store w0 !! this = Some o ->
            keeps_flag l w0 (set_store (insert this
              {| lokiEndpoint := lokiEndpoint o; serviceName := serviceName o;
                 enabled := enabled o; metrics := m |}) w0))
    by (intros; apply keeps_flag_update; assumption).
  assert (K : forall w0, keeps_flag l w0 (tick w0))
    by (intros w0 o Ho; exists o; split; [exact Ho | reflexivity]).
  assert (S : forall req w0, keeps_flag l w0 (send req w0))
    by (intros req w0 o Ho; exists o; split; [exact Ho | reflexivity]).
  destruct c; cbn [exec].
  - apply keeps_flag_new.
  - apply (preserves_logTranscript _ (fun _ => True) R T K S U); exact I.
  - apply (preserves_logTranscripts _ (fun _ => True) R T K S U); exact I.
  - apply (preserves_getMetrics _ R T).
  - apply (preserves_searchTranscripts _ R T K S).
  - apply (preserves_getTranscriptStats _ R T K S).
Qed.

Lemma exec_all_keeps_flag l calls : forall w, keeps_flag l w (exec_all calls w).
Proof.
  induction calls as [| c rest IH]; intros w; [apply keeps_flag_refl |].
  cbn. eapply keeps_flag_trans; [apply exec_keeps_flag | apply IH].
Qed.

(** A push on [l1] leaves every other instance as it is. *)
Lemma exec_push_leaves l1 l2 c w :
  l1 <> l2 -> pushes_on l1 c -> leaves l2 w (exec c w).
Proof.
  intros Hne Hc.
  assert (R : forall w0, leaves l2 w0 w0) by reflexivity.
  assert (T : forall a b c0, leaves l2 a b -> leaves l2 b c0 -> leaves l2 a c0)
    by (unfold leaves; intros; congruence).
  assert (U : forall this o m w0, this <> l2 -> store w0 !! this = Some o ->
            leaves l2 w0 (set_store (insert this
              {| lokiEndpoint := lokiEndpoint o; serviceName := serviceName o;
                 enabled := enabled o; metrics := m |}) w0))
    by (intros; apply leaves_update; assumption).
  assert (K : forall w0, leaves l2 w0 (tick w0)) by reflexivity.
  assert (S : forall req w0, leaves l2 w0 (send req w0)) by reflexivity.
  destruct c; cbn in Hc; try contradiction; subst; cbn [exec].
  - apply (preserves_logTranscript _ (fun this => this <> l2) R T K S U); exact Hne.
  - apply (preserves_logTranscripts _ (fun this => this <> l2) R T K S U); exact Hne.
Qed.

Lemma exec_all_pushes_leave l1 l2 calls :
  l1 <> l2 -> Forall (pushes_on l1) calls ->
  forall w, leaves l2 w (exec_all calls w).
Proof.
  intros Hne Hall. induction Hall as [| c rest Hc Hrest IH]; intros w; [reflexivity |].
  cbn. unfold leaves in *. rewrite IH. apply (exec_push_leaves l1); assumption.
Qed.

Lemma attempts_disabled this o transcripts w :
  store w !! this = Some o -> enabled o = false ->
  attempts this transcripts w = (map (fun _ => Return tt) transcripts, w).
Proof.
  intros Ho He. induction transcripts as [| t rest IH]; [reflexivity |].
  cbn [attempts]. rewrite (logTranscript_disabled this o t w Ho He), IH. reflexivity.
Qed.

(** C9: an instance constructed with [enabled: false] stays disabled
    whatever is called afterwards, and a push on it, single or batched,
    returns with success and leaves the world as it was: no request is sent
    and no counter moves. *)
Theorem C9_disabled_push_is_noop options calls w :
  opt_enabled options = Some false ->
  exists this,
    fst (new_TranscriptLogger options w) = Return this /\
    let w1 := exec_all calls (snd (new_TranscriptLogger options w)) in
    (forall transcript, logTranscript this transcript w1 = (Return tt, w1)) /\
    (forall transcripts,
       exists results,
         logTranscripts this transcripts w1 = (Return results, w1) /\
         map r_transcript results = transcripts /\
         Forall (fun r => r_status r = "success") results).
Proof.
  intros Hopt.
  destruct (new_TranscriptLogger_fresh options w) as (this & Hnew & _ & Hstore).
  exists this. split; [exact Hnew |]. cbn zeta.
  set (w0 := snd (new_TranscriptLogger options w)) in *.
  destruct (exec_all_keeps_flag this calls w0 _ Hstore) as (o & Ho & He).
  cbn in He. rewrite Hopt in He.
  split.
  - intros transcript. apply (logTranscript_disabled this o); assumption.
  - intros transcripts. unfold logTranscripts.
    rewrite logTranscripts_loop_attempts.
    rewrite (attempts_disabled this o transcripts _ Ho He). cbn [fst snd app].
    eexists. split; [reflexivity |]. split.
    + apply results_of_transcripts. rewrite length_map. reflexivity.
    + clear. induction transcripts as [| t rest IH]; cbn; constructor; auto.
Qed.

(** C9, at an instance made with [enabled: false]. *)
Lemma C9_disabled_push_is_noop_witness :
  let w1 := exec_all [CallGetMetrics 0]
              (snd (new_TranscriptLogger disabled_options (fresh_world always_204))) in
  logTranscript 0 (plain_turn 1705312200000) w1 = (Return tt, w1) /\
  requests w1 = [].
Proof.
  destruct (C9_disabled_push_is_noop disabled_options [CallGetMetrics 0]
              (fresh_world always_204) eq_refl) as (this & Hnew & Hpush & _).
  injection Hnew as <-.
  split; [apply Hpush | reflexivity].
Defined.

(** C10: the counters belong to the instance: whatever pushes are made on
    one instance, the snapshot [getMetrics] takes of any other instance is
    what it was before. *)
Theorem C10_counters_per_instance l1 l2 calls w :
  l1 <> l2 -> Forall (pushes_on l1) calls ->
  fst (getMetrics l2 (exec_all calls w)) = fst (getMetrics l2 w).
Proof.
  intros Hne Hall.
  pose proof (exec_all_pushes_leave l1 l2 calls Hne Hall w) as H.
  unfold leaves in H. unfold getMetrics, bind, read_this. rewrite H.
  destruct (store w !! l2); reflexivity.
Qed.

(** C10, at two instances made one after the other: three pushes on the
    first, and the second still counts nothing. *)
Lemma C10_counters_per_instance_witness :
  let w := snd (new_TranscriptLogger default_options (one_logger always_204)) in
  let calls := [CallLogTranscript 0 (plain_turn 1);
                CallLogTranscripts 0 [plain_turn 2; plain_turn 3]] in
  fst (getMetrics 0 (exec_all calls w)) =
    Return {| transcript_entries_total := 3; transcript_errors_total := 0;
              last_transcript_timestamp := Some 1705312200002 |} /\
  fst (getMetrics 1 (exec_all calls w)) =
    Return {| transcript_entries_total := 0; transcript_errors_total := 0;
              last_transcript_timestamp := None |}.
Proof.
  split; [reflexivity |].
  refine (C10_counters_per_instance 0 1 _ _ _ _).
  - discriminate.
  - repeat constructor.
Defined.

End InstanceFacts.

(** ** Queries *)

Module QueryFacts.
Import JSNumber JSRuntime Builder JSValue Logger Runs Spec Scenarios.
Import JSNumberFacts PushFacts.

Lemma run_num_or b f w :
  num_or b (now <- Date_now ;; ret (f now)) w =
    (Return (fst (bound_or_now b f w)), snd (bound_or_now b f w)).
Proof.
  unfold num_or, bound_or_now.
  destruct b as [x |]; [destruct (x =? 0) |]; reflexivity.
Qed.

Lemma run_num_or_now b w :
  num_or b Date_now w =
    (Return (fst (bound_or_now b (fun now => now) w)),
     snd (bound_or_now b (fun now => now) w)).
Proof.
  unfold num_or, bound_or_now.
  destruct b as [x |]; [destruct (x =? 0) |]; reflexivity.
Qed.

Lemma bound_or_now_wire b f w :
  requests (snd (bound_or_now b f w)) = requests w /\
  backend (snd (bound_or_now b f w)) = backend w /\
  store (snd (bound_or_now b f w)) = store w.
Proof.
  unfold bound_or_now. destruct b as [x |]; [destruct (x =? 0) |]; auto.
Qed.

(** [searchTranscripts] in closed form: the two bounds are resolved, one
    request is sent, and its reply decides the outcome. *)
Lemma run_searchTranscripts query s e w :
  let '(start, w1) := bound_or_now s (fun now => js_sub now (24 * 60 * 60 * 1000)) w in
  let '(end_, w2) := bound_or_now e (fun now => now) w1 in
  let req := GET (query_path query (Number_toString (js_mul start 1000000))
                                   (Number_toString (js_mul end_ 1000000))) in
  searchTranscripts query s e w =
    (query_outcome (backend w (length (requests w)) req), send req w2).
Proof.
  pose proof (run_num_or s (fun now => js_sub now (24 * 60 * 60 * 1000)) w) as H1.
  pose proof (bound_or_now_wire s (fun now => js_sub now (24 * 60 * 60 * 1000)) w)
    as (Hr1 & Hb1 & _).
  destruct (bound_or_now s _ w) as [start w1]. cbn [fst snd] in *.
  pose proof (run_num_or_now e w1) as H2.
  pose proof (bound_or_now_wire e (fun now => now) w1) as (Hr2 & Hb2 & _).
  destruct (bound_or_now e _ w1) as [end_ w2]. cbn [fst snd] in *.
  cbn zeta. unfold searchTranscripts.
  erewrite run_bind_return by exact H1.
  erewrite run_bind_return by exact H2.
  erewrite run_bind_return by reflexivity.
  unfold query_path. rewrite Hr2, Hb2, Hr1, Hb1.
  destruct (backend w _ _) as [message | res]; [reflexivity |].
  cbn [query_outcome]. destruct (parsed res); reflexivity.
Qed.

Lemma searchTranscripts_sends_one query s e w :
  exists req,
    requests (snd (searchTranscripts query s e w)) = (requests w ++ [req])%list /\
    fst (searchTranscripts query s e w) =
      query_outcome (backend w (length (requests w)) req).
Proof.
  pose proof (run_searchTranscripts query s e w) as H.
  pose proof (bound_or_now_wire s (fun now => js_sub now (24 * 60 * 60 * 1000)) w)
    as (Hr1 & _ & _).
  destruct (bound_or_now s _ w) as [start w1]. cbn [fst snd] in *.
  pose proof (bound_or_now_wire e (fun now => now) w1) as (Hr2 & _ & _).
  destruct (bound_or_now e _ w1) as [end_ w2]. cbn [fst snd] in *.
  cbn zeta in H. rewrite H. eexists. cbn [fst snd send requests].
  rewrite Hr2, Hr1. split; reflexivity.
Qed.

(** C2 (as stated) fails: a 200 reply whose body is the JSON text [42] is
    returned to the caller as the value 42, although it has none of the
    expected shape. *)
Lemma C2_counterexample :
  let w := fresh_world answers_42 in
  let r := fst (searchTranscripts session_selector None None w) in
  r = Return (JNumber 42) /\
  ~ query_contract (answers_42 0 (GET EmptyString)) r.
Proof.
  cbn zeta. split; [reflexivity |].
  intros [e He]. vm_compute in He. discriminate He.
Qed.

(** The status of the reply plays no part in [searchTranscripts]: a 500 with
    a JSON body is returned as a result. *)
Remark searchTranscripts_ignores_status :
  fst (searchTranscripts session_selector None None (fresh_world answers_500)) =
    Return (JObject [("status", JString "error")]).
Proof. reflexivity. Qed.

(** C2 (amended): [searchTranscripts] sends one request; it throws
    [Failed to query Loki: ...] when the transport fails; on a 2xx reply it
    throws [Failed to parse Loki response: ...] when the body is not JSON and
    returns the parsed body, whatever its shape, when it is. *)
Theorem C2_query_outcomes query startTime endTime w :
  let r := fst (searchTranscripts query startTime endTime w) in
  let w' := snd (searchTranscripts query startTime endTime w) in
  exists req,
    requests w' = (requests w ++ [req])%list /\
    let reply := backend w (length (requests w)) req in
    (forall message,
       reply = TransportFailure message ->
       r = Throw (Error ("Failed to query Loki: " +:+ message))) /\
    (forall res message,
       reply = Responded res -> success_status (statusCode res) = true ->
       parsed res = SyntaxError message ->
       r = Throw (Error ("Failed to parse Loki response: " +:+ message))) /\
    (forall res v,
       reply = Responded res -> success_status (statusCode res) = true ->
       parsed res = Parsed v ->
       r = Return v).
Proof.
  cbn zeta.
  destruct (searchTranscripts_sends_one query startTime endTime w) as (req & Hreq & Hout).
  exists req. split; [exact Hreq |]. rewrite Hout.
  split; [| split].
  - intros message ->. reflexivity.
  - intros res message -> _ Hp. cbn. rewrite Hp. reflexivity.
  - intros res v -> _ Hp. cbn. rewrite Hp. reflexivity.
Qed.

(** C2 (amended), at an unreachable backend and at a 200 reply. *)
Lemma C2_query_outcomes_witness :
  fst (searchTranscripts session_selector None None (fresh_world unreachable)) =
    Throw (Error "Failed to query Loki: connect ECONNREFUSED 127.0.0.1:3100") /\
  fst (searchTranscripts session_selector None None (fresh_world answers_42)) =
    Return (JNumber 42).
Proof.
  split.
  - destruct (C2_query_outcomes session_selector None None (fresh_world unreachable))
      as (req & _ & Hfail & _ & _).
    exact (Hfail _ eq_refl).
  - destruct (C2_query_outcomes session_selector None None (fresh_world answers_42))
      as (req & _ & _ & _ & Hok).
    exact (Hok _ _ eq_refl eq_refl eq_refl).
Defined.

(** C6 (as stated) fails: bounds given as 1705312200 and 1705315800 go out
    multiplied by [10 ^ 6], not by [10 ^ 9]. *)
Lemma C6_counterexample :
  let w := fresh_world answers_42 in
  requests (snd (searchTranscripts session_selector
                   (Some 1705312200) (Some 1705315800) w)) =
    [GET (query_path session_selector "1705312200000000" "1705315800000000")] /\
  query_path session_selector "1705312200000000" "1705315800000000" <>
    query_path_of_seconds session_selector 1705312200 1705315800.
Proof.
  cbn zeta. split; [vm_compute; reflexivity |].
  intros H. apply String.eqb_eq in H. vm_compute in H. discriminate H.
Qed.

(** C6 (amended): with both bounds left out, the start sent is the reading
    of the clock minus 86400000 ms and the end sent is the next reading of
    the clock; bounds that are given are sent as they are; in both cases the
    millisecond values go out multiplied by [10 ^ 6], in exact decimal. *)
Theorem C6_query_window query w :
  let now1 := clock w (clock_reads w) in
  let now2 := clock w (S (clock_reads w)) in
  (forall s e,
     omitted s -> omitted e ->
     Z.abs (now1 - 86400000) < 10 ^ 15 -> Z.abs now2 < 10 ^ 15 ->
     requests (snd (searchTranscripts query s e w)) =
       (requests w ++
        [GET (query_path query (decimal ((now1 - 86400000) * 1000000))
                               (decimal (now2 * 1000000)))])%list) /\
  (forall s e,
     s <> 0 -> e <> 0 -> Z.abs s < 10 ^ 15 -> Z.abs e < 10 ^ 15 ->
     requests (snd (searchTranscripts query (Some s) (Some e) w)) =
       (requests w ++
        [GET (query_path query (decimal (s * 1000000))
                               (decimal (e * 1000000)))])%list).
Proof.
  cbn zeta. split.
  - intros s e Hs He H1 H2.
    pose proof (run_searchTranscripts query s e w) as H.
    assert (Hbs : bound_or_now s (fun now => js_sub now (24 * 60 * 60 * 1000)) w =
                  (clock w (clock_reads w) - 86400000, tick w)).
    { assert (Hsub : js_sub (clock w (clock_reads w)) (24 * 60 * 60 * 1000) =
                     clock w (clock_reads w) - 86400000).
      { unfold js_sub. change (24 * 60 * 60 * 1000) with 86400000.
        apply js_round_small. unfold two53.
        change (10 ^ 15) with 1000000000000000 in H1.
        change (2 ^ 53) with 9007199254740992. lia. }
      destruct Hs as [-> | ->]; cbn [bound_or_now Z.eqb]; rewrite Hsub; reflexivity. }
    rewrite Hbs in H.
    assert (Hbe : bound_or_now e (fun now => now) (tick w) =
                  (clock w (S (clock_reads w)), tick (tick w))).
    { destruct He as [-> | ->]; reflexivity. }
    rewrite Hbe in H. cbn zeta in H. rewrite H. cbn [snd send requests tick].
    rewrite !Number_toString_mul_million by assumption. reflexivity.
  - intros s e Hs He H1 H2.
    pose proof (run_searchTranscripts query (Some s) (Some e) w) as H.
    unfold bound_or_now in H.
    destruct (Z.eqb_spec s 0); [contradiction |].
    destruct (Z.eqb_spec e 0); [contradiction |].
    cbn zeta in H. rewrite H. cbn [snd send requests].
    rewrite !Number_toString_mul_million by assumption. reflexivity.
Qed.

(** C6 (amended), without bounds and with bounds in milliseconds. *)
Lemma C6_query_window_witness :
  requests (snd (searchTranscripts session_selector None None (fresh_world answers_42))) =
    [GET (query_path session_selector "1705225800000000000" "1705312200001000000")] /\
  requests (snd (searchTranscripts session_selector
                   (Some 1705308600000) (Some 1705312200000) (fresh_world answers_42))) =
    [GET (query_path session_selector "1705308600000000000" "1705312200000000000")].
Proof.
  split.
  - refine (proj1 (C6_query_window session_selector (fresh_world answers_42))
              None None _ _ _ _).
    + left; reflexivity.
    + left; reflexivity.
    + reflexivity.
    + reflexivity.
  - refine (proj2 (C6_query_window session_selector (fresh_world answers_42))
              1705308600000 1705312200000 _ _ _ _).
    + discriminate.
    + discriminate.
    + reflexivity.
    + reflexivity.
Defined.

End QueryFacts.

(** ** Statistics *)

Module StatsFacts.
Import JSNumber JSRuntime Builder JSValue Logger Runs Results Spec Scenarios.
Import JSNumberFacts PushFacts QueryFacts.

Lemma run_settle {A} (m : M A) w r w' : m w = (r, w') -> settle m w = (Return r, w').
Proof. intros H. unfold settle. rewrite H. reflexivity. Qed.

Lemma run_Promise_all2 {A B} (a : M A) (b : M B) w ra w1 rb w2 :
  a w = (ra, w1) -> b w1 = (rb, w2) ->
  Promise_all2 a b w =
    (match ra, rb with
     | Return x, Return y => Return (x, y)
     | Throw e, _ => Throw e
     | _, Throw e => Throw e
     end, w2).
Proof.
  intros Ha Hb. unfold Promise_all2.
  erewrite run_bind_return by (apply run_settle; exact Ha).
  erewrite run_bind_return by (apply run_settle; exact Hb).
  destruct ra, rb; reflexivity.
Qed.

(** C3 (as stated) fails, in two ways.  When the query for [zara] meets a
    transport failure, the call does not fail: the error is caught and the
    caller gets [null] as the result of a call that returned.  When the
    query for [zara] is answered with status 500 and a JSON error object,
    the query is not taken for a failure at all, and the caller gets the
    count of [user] alone: 1, 0, and 1 in total. *)
Lemma C3_counterexample :
  (let run := getTranscriptStats 0 None (one_logger second_query_fails) in
   map query_fails (replies (snd run)) = [false; true] /\
   fst run = Return None /\
   ~ stats_contract (replies (snd run)) (fst run)) /\
  (let run := getTranscriptStats 0 None (one_logger second_query_500) in
   map query_fails (replies (snd run)) = [false; true] /\
   (exists stats,
      fst run = Return (Some stats) /\
      userMessages stats = VJson (JNumber 1) /\
      zaraMessages stats = VJson (JNumber 0) /\
      totalMessages stats = VJson (JNumber 1)) /\
   ~ stats_contract (replies (snd run)) (fst run)).
Proof.
  split.
  - split; [reflexivity |]. split; [reflexivity |].
    intros Hc. destruct (Hc eq_refl) as [e He]. discriminate He.
  - split; [reflexivity |]. split.
    + eexists. split; [vm_compute; reflexivity |]. repeat split; reflexivity.
    + intros Hc. destruct (Hc eq_refl) as [e He]. vm_compute in He. discriminate He.
Qed.

(** C3 (amended): when the call of [searchTranscripts] for [user] or the one
    for [zara] is rejected (a transport failure, or a body that is not
    JSON), [getTranscriptStats] returns [null] to its caller, and no
    count. *)
Theorem C3_stats_fail_closed this o timeRange w ru rz w2 w3 :
  store w !! this = Some o ->
  let end_ := clock w (clock_reads w) in
  let start := window_start (window_name timeRange) end_ in
  searchTranscripts (selector (serviceName o) "user") (Some start) (Some end_) (tick w)
    = (ru, w2) ->
  searchTranscripts (selector (serviceName o) "zara") (Some start) (Some end_) w2
    = (rz, w3) ->
  rejected ru \/ rejected rz ->
  getTranscriptStats this timeRange w = (Return None, w3).
Proof.
  intros Ho end_ start Hu Hz Hrej.
  unfold getTranscriptStats. fold (window_name timeRange).
  erewrite run_bind_return by reflexivity. fold end_. fold start.
  unfold try_catch.
  erewrite run_bind_return by (apply run_read_this; exact Ho).
  pose proof (run_Promise_all2 _ _ _ _ _ _ _ Hu Hz) as Hall.
  assert (Hthrow : exists e, Promise_all2
            (searchTranscripts (selector (serviceName o) "user") (Some start) (Some end_))
            (searchTranscripts (selector (serviceName o) "zara") (Some start) (Some end_))
            (tick w) = (Throw e, w3)).
  { rewrite Hall. destruct Hrej as [[e ->] | [e ->]]; [eauto |].
    destruct ru; eauto. }
  destruct Hthrow as [e He].
  erewrite run_bind_throw by exact He. reflexivity.
Qed.

(** C3 (amended), at a backend that answers the query for [user] and fails
    the query for [zara]. *)
Lemma C3_stats_fail_closed_witness :
  fst (searchTranscripts (selector "zaralive-transcripts" "user")
         (Some 1705308600000) (Some 1705312200000)
         (tick (one_logger second_query_fails))) = Return user_response /\
  fst (getTranscriptStats 0 None (one_logger second_query_fails)) = Return None.
Proof.
  split; [reflexivity |].
  erewrite (C3_stats_fail_closed 0 _ None (one_logger second_query_fails)
              _ _ _ _ eq_refl eq_refl eq_refl); [reflexivity |].
  right. eexists. reflexivity.
Defined.

Lemma all_stream_values_head items streams :
  all_stream_values items = Some streams ->
  match items with
  | [] => streams = []
  | item :: _ => exists vs rest, stream_values item = Some vs /\ streams = vs :: rest
  end.
Proof.
  destruct items as [| item rest]; cbn.
  - intros [= <-]. reflexivity.
  - destruct (stream_values item) as [vs |]; [| discriminate].
    destruct (all_stream_values rest) as [vss |]; [| discriminate].
    intros [= <-]. eauto.
Qed.

(** On a result of the expected shape, the count is the number of values of
    the first stream. *)
Lemma message_count_first_stream logs streams :
  streams_of logs = Some streams ->
  message_count logs = Return (VJson (JNumber (first_stream_count streams))).
Proof.
  unfold streams_of.
  destruct logs as [| | | | | props]; try discriminate.
  destruct (own_property props "data") as [[| | | | | d] |] eqn:Hd; try discriminate.
  destruct (own_property d "result") as [[| | | | items |] |] eqn:Hr; try discriminate.
  intros Hall. apply all_stream_values_head in Hall.
  unfold message_count. cbn [get key_name]. rewrite Hd. cbn [of_option].
  unfold get_opt at 4. cbn [get key_name]. rewrite Hr. cbn [of_option].
  destruct items as [| item rest].
  - subst streams. reflexivity.
  - destruct Hall as (vs & vss & Hv & ->).
    unfold get_opt at 3. cbn [get nth_error of_option].
    unfold stream_values in Hv.
    destruct item as [| | | | | sprops]; try discriminate.
    destruct (own_property sprops "values") as [[| | | | vals |] |] eqn:Hvals;
      try discriminate.
    injection Hv as <-.
    unfold get_opt at 2. cbn [get key_name]. rewrite Hvals. cbn [of_option].
    unfold get_opt. cbn [get String.eqb Ascii.eqb Bool.eqb first_stream_count].
    unfold or_zero, truthy.
    destruct (Z.eqb_spec (Z.of_nat (length vals)) 0) as [-> | _]; reflexivity.
Qed.

(** C7, the code at the failing input: the query for [user] returns three
    values in two streams and the query for [zara] three values in one
    stream; [userMessages] is 1 where the values returned are 3, and
    [totalMessages] is 4 where they are 6.  The count stops at the first
    stream of each answer. *)
Lemma C7_counts_first_stream_only :
  exists stats user_streams zara_streams,
    fst (getTranscriptStats 0 None (one_logger stats_backend)) = Return (Some stats) /\
    fst (searchTranscripts (selector "zaralive-transcripts" "user")
           (Some 1705308600000) (Some 1705312200000)
           (tick (one_logger stats_backend))) = Return user_response /\
    streams_of user_response = Some user_streams /\
    streams_of zara_response = Some zara_streams /\
    values_returned user_streams = 3 /\
    values_returned zara_streams = 3 /\
    userMessages stats = VJson (JNumber 1) /\
    zaraMessages stats = VJson (JNumber 3) /\
    totalMessages stats = VJson (JNumber 4) /\
    userMessages stats <> VJson (JNumber (values_returned user_streams)) /\
    totalMessages stats <>
      VJson (JNumber (values_returned user_streams + values_returned zara_streams)).
Proof.
  eexists _, _, _. split; [vm_compute; reflexivity |].
  split; [reflexivity |]. split; [reflexivity |]. split; [reflexivity |].
  split; [reflexivity |]. split; [reflexivity |]. split; [reflexivity |].
  split; [reflexivity |]. split; [reflexivity |].
  split; discriminate.
Qed.

(** What the code computes on two results of the expected shape: the
    numbers of values of the first stream of each (0 without a stream), and
    their sum.  The counts are the values returned when each query returns
    at most one stream. *)
Lemma getTranscriptStats_counts this o timeRange w userLogs zaraLogs us zs w2 w3 :
  store w !! this = Some o ->
  let end_ := clock w (clock_reads w) in
  let start := window_start (window_name timeRange) end_ in
  searchTranscripts (selector (serviceName o) "user") (Some start) (Some end_) (tick w)
    = (Return userLogs, w2) ->
  searchTranscripts (selector (serviceName o) "zara") (Some start) (Some end_) w2
    = (Return zaraLogs, w3) ->
  streams_of userLogs = Some us -> streams_of zaraLogs = Some zs ->
  first_stream_count us < 2 ^ 32 -> first_stream_count zs < 2 ^ 32 ->
  valid_time start = true -> valid_time end_ = true ->
  exists stats,
    getTranscriptStats this timeRange w = (Return (Some stats), w3) /\
    Logger.timeRange stats = window_name timeRange /\
    userMessages stats = VJson (JNumber (first_stream_count us)) /\
    zaraMessages stats = VJson (JNumber (first_stream_count zs)) /\
    totalMessages stats =
      VJson (JNumber (first_stream_count us + first_stream_count zs)).
Proof.
  intros Ho end_ start Hu Hz Hus Hzs Bu Bz Vs Ve.
  unfold getTranscriptStats. fold (window_name timeRange).
  erewrite run_bind_return by reflexivity. fold end_. fold start.
  unfold try_catch.
  erewrite run_bind_return by (apply run_read_this; exact Ho).
  erewrite run_bind_return by (apply (run_Promise_all2 _ _ _ _ _ _ _ Hu Hz)).
  cbv beta iota.
  rewrite (message_count_first_stream _ _ Hus), (message_count_first_stream _ _ Hzs).
  erewrite (run_bind_return (lift _)) by reflexivity.
  erewrite (run_bind_return (lift _)) by reflexivity.
  destruct (BuilderFacts.Date_toISOString_valid _ Vs) as [isoS HS].
  destruct (BuilderFacts.Date_toISOString_valid _ Ve) as [isoE HE].
  unfold toISOString. rewrite HS, HE.
  erewrite run_bind_return by reflexivity.
  erewrite run_bind_return by reflexivity.
  eexists. split; [reflexivity |]. cbn.
  split; [reflexivity |]. split; [reflexivity |]. split; [reflexivity |].
  unfold plus. cbn [to_primitive primitive_toNumber]. unfold js_add.
  rewrite js_round_small; [reflexivity |].
  assert (0 <= first_stream_count us) by (destruct us; cbn; lia).
  assert (0 <= first_stream_count zs) by (destruct zs; cbn; lia).
  unfold two53. change (2 ^ 32) with 4294967296 in *.
  change (2 ^ 53) with 9007199254740992. lia.
Qed.

End StatsFacts.

(** * Further properties *)

(** ** Rendering of safe integers *)

Module NumberRendering.
Import JSNumber JSNumberFacts.

(** A safe integer is its own shortest decimal. *)
Lemma shortest_from_safe j x : 0 < x < two53 -> shortest_from j x = x.
Proof.
  intros Hx. induction j as [| j IH]; cbn [shortest_from].
  all: set (p := 10 ^ Z.of_nat _).
  all: assert (Hp : 0 < p) by (apply Z.pow_pos_nonneg; lia).
  all: pose proof (Z.div_mod x p ltac:(lia)) as Hdm.
  all: pose proof (Z.mod_pos_bound x p Hp) as Hmod.
  all: assert (Hq : 0 <= x / p) by (apply Z.div_pos; lia).
  all: set (lo := x / p * p) in *.
  all: assert (Hlo : 0 <= lo <= x /\ x < lo + p) by (unfold lo; nia).
  all: assert (Hh : (js_round (lo + p) =? x) = false).
  1,3: apply Z.eqb_neq; intros Heq;
       destruct (Z.lt_ge_cases (lo + p) two53) as [Hs | Hb];
       [ rewrite js_round_small in Heq by lia; lia
       | pose proof (js_round_ge_pow2 (lo + p) 53 ltac:(lia) Hb); unfold two53 in *; lia ].
  all: rewrite Hh, andb_false_r.
  all: destruct (Z.ltb_spec 0 lo); cbn [andb];
       [ rewrite js_round_small by lia;
         destruct (Z.eqb_spec lo x); [assumption |] | ].
  all: try reflexivity; try exact IH.
Qed.

Lemma Number_toString_safe z : Z.abs z < two53 -> Number_toString z = decimal z.
Proof.
  intros Hz.
  assert (Hpos : forall x, 0 < x < two53 -> toString_pos x = decimal x).
  { intros x Hx. unfold toString_pos, shortest. rewrite shortest_from_safe by exact Hx.
    destruct (Z.ltb_spec x (10 ^ 21)); [reflexivity |].
    unfold two53 in Hx. change (2 ^ 53) with 9007199254740992 in Hx.
    change (10 ^ 21) with 1000000000000000000000 in *. lia. }
  unfold Number_toString.
  destruct (Z.eqb_spec z 0) as [-> | Hne]; [reflexivity |].
  destruct (Z.ltb_spec z 0).
  - rewrite Hpos by lia. destruct z; try lia. reflexivity.
  - apply Hpos. lia.
Qed.

End NumberRendering.

(** ** More on the record builder *)

Module BuilderCoverage.
Import JSNumber JSRuntime Builder JSValue Logger Runs Results Spec Scenarios.
Import Example Coverage Effects.
Import JSNumberFacts BuilderFacts PushFacts InstanceFacts QueryFacts StatsFacts.
Import NumberRendering.

(** X1: [prepareLogEntry] returns exactly when the timestamp is a valid
    [Date] time value; it then returns one stream with one value, and it
    throws [RangeError: Invalid time value] otherwise. *)
Theorem X1_build_outcome sn t :
  (valid_time (timestamp t) = true ->
     exists lbl stamp payload,
       prepareLogEntry sn t =
         Return {| streams := [ {| stream := lbl; values := [(stamp, payload)] |} ] |}) /\
  (valid_time (timestamp t) = false ->
     prepareLogEntry sn t = Throw (RangeError "Invalid time value")).
Proof.
  split.
  - intros H. destruct (Date_toISOString_valid _ H) as [iso Hiso].
    unfold prepareLogEntry. rewrite Hiso. eauto.
  - apply prepareLogEntry_throws.
Qed.

Lemma X1_build_outcome_witness :
  (exists e, prepareLogEntry "zaralive-transcripts" (plain_turn 8640000000000000) = Return e) /\
  prepareLogEntry "zaralive-transcripts" (plain_turn 8640000000000001) =
    Throw (RangeError "Invalid time value").
Proof.
  split.
  - destruct (proj1 (X1_build_outcome "zaralive-transcripts" (plain_turn 8640000000000000))
                eq_refl) as (lbl & stamp & payload & H).
    eexists. exact H.
  - exact (proj2 (X1_build_outcome "zaralive-transcripts" (plain_turn 8640000000000001))
             eq_refl).
Defined.

Lemma utf16_length_nonneg s : 0 <= utf16_length s.
Proof.
  induction s as [| c rest IH]; cbn [utf16_length]; [lia |].
  destruct (_ && _); [lia |]. destruct (240 <=? _); lia.
Qed.

(** On ASCII text the UTF-16 length is the number of characters. *)
Lemma utf16_length_ascii s :
  ascii_only s = true -> utf16_length s = Z.of_nat (String.length s).
Proof.
  unfold ascii_only. induction s as [| c rest IH]; [reflexivity |].
  cbn [list_ascii_of_string forallb utf16_length String.length].
  intros [Hc Hrest]%andb_true_iff. rewrite (IH Hrest).
  apply Z.ltb_lt in Hc.
  destruct (Z.leb_spec 128 (Z.of_nat (nat_of_ascii c))); [lia |].
  destruct (Z.leb_spec 240 (Z.of_nat (nat_of_ascii c))); [lia |].
  cbn [andb]. lia.
Qed.

(** X2: the two numeric labels are decimals: [turn_number] is the turn
    number and [content_length] the number of UTF-16 code units of the
    content, 0 when there is no content; for a content of ASCII characters
    that is the number of its characters. *)
Theorem X2_numeric_labels sn t e lbl :
  prepareLogEntry sn t = Return e -> labels e = Some lbl ->
  Z.abs (turnNumber t) < 2 ^ 53 ->
  match content t with
  | Some c => utf16_length c < 2 ^ 53
  | None => True
  end ->
  turn_number lbl = decimal (turnNumber t) /\
  content_length lbl =
    match content t with
    | Some c => decimal (utf16_length c)
    | None => "0"
    end /\
  (forall c, content t = Some c -> ascii_only c = true ->
     content_length lbl = decimal (Z.of_nat (String.length c))).
Proof.
  unfold prepareLogEntry. destruct (Date_toISOString _); [| discriminate].
  intros [= <-] [= <-] Ht Hc. cbn [stream turn_number content_length].
  assert (Hlen : Number_toString (num_or_zero (option_map utf16_length (content t))) =
                 match content t with
                 | Some c => decimal (utf16_length c)
                 | None => "0"
                 end).
  { destruct (content t) as [c |]; cbn [option_map num_or_zero]; [| reflexivity].
    apply Number_toString_safe. pose proof (utf16_length_nonneg c).
    unfold two53. lia. }
  split; [apply Number_toString_safe, Ht |]. split; [exact Hlen |].
  intros c Hsome Hascii. rewrite Hlen, Hsome, (utf16_length_ascii _ Hascii).
  reflexivity.
Qed.

(** X2, at a content of thirteen ASCII characters and at a content of five
    characters in six bytes. *)
Lemma X2_numeric_labels_witness :
  (exists e lbl,
     prepareLogEntry "zaralive-transcripts" (plain_turn 1705312200000) = Return e /\
     labels e = Some lbl /\ turn_number lbl = "1" /\ content_length lbl = "13") /\
  (exists e lbl,
     prepareLogEntry "zaralive-transcripts" accented_turn = Return e /\
     labels e = Some lbl /\ turn_number lbl = "3" /\ content_length lbl = "5" /\
     option_map String.length (content accented_turn) = Some 6%nat).
Proof.
  split.
  - eexists _, _. split; [reflexivity |]. split; [reflexivity |].
    destruct (X2_numeric_labels "zaralive-transcripts" (plain_turn 1705312200000) _ _
                eq_refl eq_refl eq_refl eq_refl) as (Ht & _ & Ha).
    split; [exact Ht |]. exact (Ha _ eq_refl eq_refl).
  - eexists _, _. split; [reflexivity |]. split; [reflexivity |].
    destruct (X2_numeric_labels "zaralive-transcripts" accented_turn _ _
                eq_refl eq_refl eq_refl eq_refl) as (Ht & Hc & _).
    split; [exact Ht |]. split; [exact Hc | reflexivity].
Defined.

(** X3: each of the four optional labels is the field of the transcript when
    that field is there and is not the empty string, and [unknown]
    otherwise: an empty string counts as missing. *)
Theorem X3_optional_labels sn t e lbl :
  prepareLogEntry sn t = Return e -> labels e = Some lbl ->
  let pick (field : option string) : string :=
    match field with
    | Some (String c rest) => String c rest
    | _ => "unknown"
    end in
  vocabulary_complexity lbl =
    pick (opt_field (opt_field (metadata t) vocabularyComplexity) level) /\
  grammar_complexity lbl =
    pick (opt_field (opt_field (metadata t) grammarComplexity) level) /\
  conversation_flow lbl = pick (opt_field (context t) conversationFlow) /\
  user_intent lbl = pick (opt_field (context t) userIntent).
Proof.
  unfold prepareLogEntry. destruct (Date_toISOString _); [| discriminate].
  intros [= <-] [= <-]. cbn.
  repeat split; unfold str_or;
    match goal with |- context [match ?x with _ => _ end] => destruct x as [[|]|] end;
    reflexivity.
Qed.

Lemma X3_optional_labels_witness :
  exists e lbl,
    prepareLogEntry "zaralive-transcripts" blank_fields_turn = Return e /\
    labels e = Some lbl /\
    vocabulary_complexity lbl = "unknown" /\ grammar_complexity lbl = "basic" /\
    conversation_flow lbl = "unknown" /\ user_intent lbl = "greeting".
Proof.
  eexists _, _. split; [reflexivity |]. split; [reflexivity |].
  exact (X3_optional_labels "zaralive-transcripts" blank_fields_turn _ _
           eq_refl eq_refl).
Defined.

End BuilderCoverage.

(** ** More on pushes *)

Module PushCoverage.
Import JSNumber JSRuntime Builder JSValue Logger Runs Results Spec Scenarios.
Import Example Coverage Effects.
Import JSNumberFacts BuilderFacts PushFacts InstanceFacts QueryFacts StatsFacts.

(** X5: a push, on an enabled instance, of a transcript whose time is not a
    valid date throws [RangeError: Invalid time value] without sending a
    request, and is counted as an error. *)
Theorem X5_push_invalid_time this o transcript w :
  store w !! this = Some o -> enabled o = true ->
  valid_time (timestamp transcript) = false ->
  logTranscript this transcript w =
    (Throw (RangeError "Invalid time value"),
     set_store (insert this (counted_error o)) w).
Proof.
  intros Ho He Hv.
  apply (logTranscript_unbuildable this o transcript _ w Ho He).
  apply prepareLogEntry_throws, Hv.
Qed.

Lemma X5_push_invalid_time_witness :
  let w := one_logger always_204 in
  let r := logTranscript 0 (plain_turn 8640000000000001) w in
  fst r = Throw (RangeError "Invalid time value") /\
  requests (snd r) = [] /\
  fst (getMetrics 0 (snd r)) =
    Return {| transcript_entries_total := 0; transcript_errors_total := 1;
              last_transcript_timestamp := None |}.
Proof.
  cbn zeta.
  rewrite (X5_push_invalid_time 0 _ (plain_turn 8640000000000001)
             (one_logger always_204) eq_refl eq_refl eq_refl).
  repeat split.
Defined.

(** What one push does to the store: nothing, or one success or one error
    counted on the instance pushed on. *)
Lemma logTranscript_store this transcript w :
  let w' := snd (logTranscript this transcript w) in
  store w' = store w \/
  exists o,
    store w !! this = Some o /\ enabled o = true /\
    (store w' = <[this := counted_success o (clock w (clock_reads w))]> (store w) \/
     store w' = <[this := counted_error o]> (store w)).
Proof.
  cbn zeta. destruct (store w !! this) as [o |] eqn:Ho.
  - destruct (enabled o) eqn:He.
    + right. exists o. split; [reflexivity |]. split; [exact He |].
      destruct (prepareLogEntry (serviceName o) transcript) as [logEntry | e] eqn:Hb.
      * rewrite (logTranscript_enabled this o transcript logEntry w Ho He Hb). cbn zeta.
        destruct (accepted _); [left | right]; reflexivity.
      * rewrite (logTranscript_unbuildable this o transcript e w Ho He Hb).
        right. reflexivity.
    + left. rewrite (logTranscript_disabled this o transcript w Ho He). reflexivity.
  - left. unfold logTranscript, bind, read_this. rewrite Ho. reflexivity.
Qed.

(** One push on an enabled instance counts exactly one success or exactly
    one error, and sends a request exactly when the transcript builds. *)
Lemma logTranscript_enabled_step this o transcript w :
  store w !! this = Some o -> enabled o = true ->
  let r := fst (logTranscript this transcript w) in
  let w' := snd (logTranscript this transcript w) in
  length (requests w') =
    (length (requests w) + (if valid_time (timestamp transcript) then 1 else 0))%nat /\
  (r = Return tt /\
   store w' !! this = Some (counted_success o (clock w (clock_reads w))) \/
   (exists e, r = Throw e) /\ store w' !! this = Some (counted_error o)).
Proof.
  intros Ho He. cbn zeta.
  destruct (valid_time (timestamp transcript)) eqn:Hv.
  - destruct (prepareLogEntry_returns (serviceName o) transcript Hv) as [logEntry Hb].
    rewrite (logTranscript_enabled this o transcript logEntry w Ho He Hb). cbn zeta.
    destruct (accepted _); cbn [fst snd pushed_ok pushed_failed requests store].
    + split; [rewrite length_app; reflexivity |]. left.
      split; [reflexivity | apply lookup_insert_eq].
    + split; [rewrite length_app; reflexivity |]. right.
      split; [eauto | apply lookup_insert_eq].
  - rewrite (logTranscript_unbuildable this o transcript _ w Ho He
               (prepareLogEntry_throws _ _ Hv)). cbn.
    split; [lia |]. right. split; [eauto | apply lookup_insert_eq].
Qed.

End PushCoverage.

(** ** Batches *)

Module BatchCoverage.
Import JSNumber JSRuntime Builder JSValue Logger Runs Results Spec Scenarios.
Import Example Coverage Effects.
Import JSNumberFacts BuilderFacts PushFacts InstanceFacts QueryFacts StatsFacts.
Import PushCoverage.

Lemma attempts_accounting this transcripts :
  forall o w,
    store w !! this = Some o -> enabled o = true ->
    let results := results_of transcripts (fst (attempts this transcripts w)) in
    let w' := snd (attempts this transcripts w) in
    exists o',
      store w' !! this = Some o' /\
      transcriptEntriesTotal (metrics o') =
        transcriptEntriesTotal (metrics o) + count_status "success" results /\
      transcriptErrorsTotal (metrics o') =
        transcriptErrorsTotal (metrics o) + count_status "error" results /\
      count_status "success" results + count_status "error" results =
        Z.of_nat (length transcripts) /\
      length (requests w') = (length (requests w) + count_buildable transcripts)%nat.
Proof.
  induction transcripts as [| t rest IH]; intros o w Ho He; cbn zeta.
  - exists o. cbn. split; [exact Ho |]. unfold count_status. cbn.
    repeat split; lia.
  - cbn [attempts].
    destruct (logTranscript_enabled_step this o t w Ho He) as (Hreq & Hstep).
    destruct (logTranscript this t w) as [r w1]. cbn [fst snd] in Hreq, Hstep.
    assert (Hnext : exists o1, store w1 !! this = Some o1 /\ enabled o1 = true /\
              transcriptEntriesTotal (metrics o1) =
                transcriptEntriesTotal (metrics o) + count_status "success" [result_of t r] /\
              transcriptErrorsTotal (metrics o1) =
                transcriptErrorsTotal (metrics o) + count_status "error" [result_of t r] /\
              count_status "success" [result_of t r] + count_status "error" [result_of t r] = 1).
    { destruct Hstep as [[-> H1] | [[e ->] H1]]; eexists; (split; [exact H1 |]);
        (split; [exact He |]); unfold count_status; cbn; lia. }
    destruct Hnext as (o1 & Ho1 & He1 & Hen & Her & Hsum).
    specialize (IH o1 w1 Ho1 He1). cbn zeta in IH.
    destruct (attempts this rest w1) as [rs w2]. cbn [fst snd results_of] in *.
    destruct IH as (o' & Ho' & Hen' & Her' & Hsum' & Hreq').
    exists o'. split; [exact Ho' |].
    assert (Hc : forall s x l, count_status s (x :: l) = count_status s [x] + count_status s l).
    { intros s x l. unfold count_status. cbn [List.filter].
      destruct (String.eqb (r_status x) s); cbn [length]; lia. }
    rewrite (Hc "success"), (Hc "error").
    split; [lia |]. split; [lia |]. split.
    + cbn [length]. lia.
    + rewrite Hreq', Hreq. unfold count_buildable. cbn [List.filter].
      destruct (valid_time (timestamp t)); cbn [length]; lia.
Qed.

(** X6: on an enabled instance a batch is counted in full:
    [transcriptEntriesTotal] grows by the number of results with status
    success, [transcriptErrorsTotal] by the number with status error, the
    two numbers add up to the size of the batch, and one request is sent
    for each transcript whose time is a valid date. *)
Theorem X6_batch_accounting this o transcripts w :
  store w !! this = Some o -> enabled o = true ->
  exists results w' o',
    logTranscripts this transcripts w = (Return results, w') /\
    store w' !! this = Some o' /\
    transcriptEntriesTotal (metrics o') =
      transcriptEntriesTotal (metrics o) + count_status "success" results /\
    transcriptErrorsTotal (metrics o') =
      transcriptErrorsTotal (metrics o) + count_status "error" results /\
    count_status "success" results + count_status "error" results =
      Z.of_nat (length transcripts) /\
    length (requests w') = (length (requests w) + count_buildable transcripts)%nat.
Proof.
  intros Ho He. unfold logTranscripts. rewrite logTranscripts_loop_attempts.
  destruct (attempts_accounting this transcripts o w Ho He) as (o' & H).
  cbn [app]. eexists _, _, o'. split; [reflexivity | exact H].
Qed.

Lemma X6_batch_accounting_witness :
  exists results w' o',
    logTranscripts 0 [plain_turn 1; plain_turn 8640000000000001; plain_turn 3]
      (one_logger always_204) = (Return results, w') /\
    store w' !! 0%nat = Some o' /\
    transcriptEntriesTotal (metrics o') = 2 /\
    transcriptErrorsTotal (metrics o') = 1 /\
    length (requests w') = 2%nat.
Proof.
  destruct (X6_batch_accounting 0 _
              [plain_turn 1; plain_turn 8640000000000001; plain_turn 3]
              (one_logger always_204) eq_refl eq_refl)
    as (results & w' & o' & Hrun & Ho' & Hen & Her & _ & Hreq).
  exists results, w', o'. split; [exact Hrun |]. split; [exact Ho' |].
  injection Hrun as <- <-. repeat split; assumption.
Defined.

End BatchCoverage.

(** ** The store over any sequence of calls *)

Module StoreCoverage.
Import JSNumber JSRuntime Builder JSValue Logger Runs Results Spec Scenarios.
Import Example Coverage Effects.
Import JSNumberFacts BuilderFacts PushFacts InstanceFacts QueryFacts StatsFacts.
Import PushCoverage.

Lemma evolves_trans a b c : evolves a b -> evolves b c -> evolves a c.
Proof.
  intros Hab Hbc. induction Hab; eauto using evolves.
Qed.

(** Reads, queries and statistics leave the store alone. *)
Lemma store_unchanged_by_reads :
  (forall this w, store (snd (getMetrics this w)) = store w) /\
  (forall query s e w, store (snd (searchTranscripts query s e w)) = store w) /\
  (forall this timeRange w, store (snd (getTranscriptStats this timeRange w)) = store w).
Proof.
  set (I := fun w w' : World => store w' = store w).
  assert (R : forall w, I w w) by reflexivity.
  assert (T : forall a b c, I a b -> I b c -> I a c) by (unfold I; intros; congruence).
  assert (K : forall w, I w (tick w)) by reflexivity.
  assert (S : forall req w, I w (send req w)) by reflexivity.
  split; [| split].
  - intros this w. apply (preserves_getMetrics I R T).
  - intros query s e w. apply (preserves_searchTranscripts I R T K S).
  - intros this timeRange w. apply (preserves_getTranscriptStats I R T K S).
Qed.

Lemma logTranscript_evolves this transcript w :
  evolves (store w) (store (snd (logTranscript this transcript w))).
Proof.
  destruct (logTranscript_store this transcript w) as [-> | (o & Ho & _ & [-> | ->])].
  - apply evolves_refl.
  - eapply evolves_success; [exact Ho | apply evolves_refl].
  - eapply evolves_error; [exact Ho | apply evolves_refl].
Qed.

Lemma attempts_evolves this transcripts :
  forall w, evolves (store w) (store (snd (attempts this transcripts w))).
Proof.
  induction transcripts as [| t rest IH]; intros w; cbn [attempts].
  - apply evolves_refl.
  - pose proof (logTranscript_evolves this t w) as H1.
    destruct (logTranscript this t w) as [r w1]. cbn [snd] in H1.
    specialize (IH w1). destruct (attempts this rest w1) as [rs w2]. cbn [snd] in *.
    eapply evolves_trans; eassumption.
Qed.

Lemma exec_evolves c w : evolves (store w) (store (exec c w)).
Proof.
  destruct store_unchanged_by_reads as (Hg & Hs & Ht).
  destruct c; cbn [exec].
  - destruct (new_TranscriptLogger_fresh options w) as (this & Hnew & Hfree & _).
    injection Hnew as <-. cbn.
    eapply evolves_new; [exact Hfree | | apply evolves_refl]. reflexivity.
  - apply logTranscript_evolves.
  - unfold logTranscripts. rewrite logTranscripts_loop_attempts. apply attempts_evolves.
  - rewrite Hg. apply evolves_refl.
  - rewrite Hs. apply evolves_refl.
  - rewrite Ht. apply evolves_refl.
Qed.

Lemma exec_all_evolves calls : forall w, evolves (store w) (store (exec_all calls w)).
Proof.
  induction calls as [| c rest IH]; intros w; cbn; [apply evolves_refl |].
  eapply evolves_trans; [apply exec_evolves | apply IH].
Qed.

Lemma evolves_healthy s s' :
  evolves s s' ->
  (forall l o, s !! l = Some o -> healthy (metrics o)) ->
  forall l o, s' !! l = Some o -> healthy (metrics o).
Proof.
  induction 1 as [s | s this o now s' Ho _ IH | s this o s' Ho _ IH
                  | s this o s' Hfree Hz _ IH]; intros Hs; [exact Hs | | |];
    apply IH; intros l o' Hl;
    (destruct (decide (this = l)) as [<- | Hne];
     [ rewrite lookup_insert_eq in Hl; injection Hl as <-
     | rewrite lookup_insert_ne in Hl by exact Hne; eapply Hs; exact Hl ]).
  - destruct (Hs this o Ho) as (H1 & H2 & H3). unfold healthy. cbn.
    split; [lia |]. split; [lia |]. split; [discriminate | lia].
  - destruct (Hs this o Ho) as (H1 & H2 & H3). unfold healthy. cbn.
    split; [lia |]. split; [lia |]. exact H3.
  - rewrite Hz. unfold healthy. cbn. split; [lia |]. split; [lia |]. split; reflexivity.
Qed.

Lemma grown_refl o : grown o o.
Proof. unfold grown. repeat split; auto; lia. Qed.

Lemma grown_trans a b c : grown a b -> grown b c -> grown a c.
Proof.
  unfold grown. intros (A1 & A2 & A3 & A4 & A5 & A6) (B1 & B2 & B3 & B4 & B5 & B6).
  repeat split; try congruence; try lia. auto.
Qed.

Lemma evolves_grown s s' :
  evolves s s' ->
  forall l o, s !! l = Some o -> exists o', s' !! l = Some o' /\ grown o o'.
Proof.
  induction 1 as [s | s this o now s' Ho _ IH | s this o s' Ho _ IH
                  | s this o s' Hfree Hz _ IH]; intros l o0 Hl.
  - exists o0. split; [exact Hl | apply grown_refl].
  - destruct (decide (this = l)) as [<- | Hne].
    + destruct (IH this _ (lookup_insert_eq _ _ _)) as (o' & Ho' & Hg).
      exists o'. split; [exact Ho' |]. rewrite Ho in Hl. injection Hl as <-.
      eapply grown_trans; [| exact Hg].
      unfold grown. cbn. repeat split; try lia. discriminate.
    + apply IH. rewrite lookup_insert_ne by exact Hne. exact Hl.
  - destruct (decide (this = l)) as [<- | Hne].
    + destruct (IH this _ (lookup_insert_eq _ _ _)) as (o' & Ho' & Hg).
      exists o'. split; [exact Ho' |]. rewrite Ho in Hl. injection Hl as <-.
      eapply grown_trans; [| exact Hg].
      unfold grown. cbn. repeat split; try lia. auto.
    + apply IH. rewrite lookup_insert_ne by exact Hne. exact Hl.
  - apply IH. rewrite lookup_insert_ne; [exact Hl |]. congruence.
Qed.

(** X7: the counters stay in order: if, in every instance, the totals are
    not negative and [lastTranscriptTimestamp] is [null] exactly when
    [transcriptEntriesTotal] is 0, then this still holds after any sequence
    of calls; it holds in particular from the start, where there is no
    instance. *)
Theorem X7_counters_stay_healthy calls w :
  all_healthy w -> all_healthy (exec_all calls w).
Proof.
  intros H l o. apply (evolves_healthy _ _ (exec_all_evolves calls w) H).
Qed.

Lemma X7_counters_stay_healthy_witness :
  all_healthy
    (exec_all [CallNew default_options;
               CallLogTranscripts 0 [plain_turn 1; plain_turn 2; plain_turn 3];
               CallGetTranscriptStats 0 None]
       (fresh_world rejects_second)).
Proof.
  apply X7_counters_stay_healthy.
  intros l o Hl. cbn in Hl. rewrite lookup_empty in Hl. discriminate Hl.
Defined.

(** X8: no call takes anything back: after any sequence of calls every
    instance is still there with the configuration it had
    ([lokiEndpoint], [serviceName], [enabled]), its two totals have not gone
    down, and its [lastTranscriptTimestamp], once set, is still set. *)
Theorem X8_counters_only_grow calls w l o :
  store w !! l = Some o ->
  exists o', store (exec_all calls w) !! l = Some o' /\ grown o o'.
Proof. apply evolves_grown, exec_all_evolves. Qed.

Lemma X8_counters_only_grow_witness :
  exists o',
    store (exec_all [CallLogTranscripts 0 [plain_turn 1; plain_turn 2; plain_turn 3];
                     CallNew disabled_options]
             (one_logger rejects_second)) !! 0%nat = Some o' /\
    transcriptEntriesTotal (metrics o') = 2 /\
    transcriptErrorsTotal (metrics o') = 1 /\
    serviceName o' = "zaralive-transcripts".
Proof.
  destruct (X8_counters_only_grow
              [CallLogTranscripts 0 [plain_turn 1; plain_turn 2; plain_turn 3];
               CallNew disabled_options]
              (one_logger rejects_second) 0%nat _ eq_refl) as (o' & Ho' & _).
  exists o'. split; [exact Ho' |].
  vm_compute in Ho'. injection Ho' as <-. repeat split.
Defined.

End StoreCoverage.

(** ** Reads, the constructor and the endpoint *)

Module InstanceCoverage.
Import JSNumber JSRuntime Builder JSValue Logger Runs Results Spec Scenarios.
Import Example Coverage Effects.
Import JSNumberFacts BuilderFacts PushFacts InstanceFacts QueryFacts StatsFacts.
Import PushCoverage StoreCoverage.

(** X9: a query and a statistics call, whether they succeed or fail, count
    nothing: the snapshot of every instance is the same after as before. *)
Theorem X9_queries_count_nothing l w :
  (forall query s e,
     fst (getMetrics l (snd (searchTranscripts query s e w))) = fst (getMetrics l w)) /\
  (forall this timeRange,
     fst (getMetrics l (snd (getTranscriptStats this timeRange w))) = fst (getMetrics l w)).
Proof.
  destruct store_unchanged_by_reads as (_ & Hs & Ht).
  split; intros; unfold getMetrics, bind, read_this; [rewrite Hs | rewrite Ht];
    destruct (store w !! l); reflexivity.
Qed.

(** X10: the constructor takes an identity that was free, leaves every
    other instance, the clock and the wire as they are, and starts the new
    instance with both totals at 0 and no timestamp; the instance is
    disabled only for [enabled: false], and a missing or empty
    [serviceName] gives [zaralive-transcripts]. *)
Theorem X10_constructor options w :
  exists this o,
    new_TranscriptLogger options w =
      (Return this, set_store (insert this o) w) /\
    store w !! this = None /\
    (forall l, l <> this ->
       store (snd (new_TranscriptLogger options w)) !! l = store w !! l) /\
    fst (getMetrics this (snd (new_TranscriptLogger options w))) =
      Return {| transcript_entries_total := 0; transcript_errors_total := 0;
                last_transcript_timestamp := None |} /\
    (enabled o = false <-> opt_enabled options = Some false) /\
    serviceName o =
      match opt_serviceName options with
      | Some (String c rest) => String c rest
      | _ => "zaralive-transcripts"
      end.
Proof.
  eexists (fresh (dom (store w))), _. split; [reflexivity |].
  split; [apply not_elem_of_dom, is_fresh |].
  split; [intros l Hne; cbn; apply lookup_insert_ne; congruence |].
  split.
  - erewrite run_getMetrics by (cbn; apply lookup_insert_eq). reflexivity.
  - cbn. split.
    + destruct (opt_enabled options) as [[|] |]; split; congruence.
    + destruct (opt_serviceName options) as [[|] |]; reflexivity.
Qed.

(** X11: [lokiEndpoint] is kept and never used: with another endpoint in
    the instance, a push has the same outcome, sends the same requests and
    leaves the same counters. *)
Theorem X11_endpoint_unused this o endpoint transcript w :
  store w !! this = Some o ->
  let w2 := set_store (insert this (with_endpoint o endpoint)) w in
  fst (logTranscript this transcript w2) = fst (logTranscript this transcript w) /\
  requests (snd (logTranscript this transcript w2)) =
    requests (snd (logTranscript this transcript w)) /\
  fst (getMetrics this (snd (logTranscript this transcript w2))) =
    fst (getMetrics this (snd (logTranscript this transcript w))).
Proof.
  intros Ho w2.
  assert (Ho2 : store w2 !! this = Some (with_endpoint o endpoint))
    by apply lookup_insert_eq.
  destruct (enabled o) eqn:He.
  - destruct (prepareLogEntry (serviceName o) transcript) as [logEntry | e] eqn:Hb.
    + rewrite (logTranscript_enabled this o transcript logEntry w Ho He Hb).
      rewrite (logTranscript_enabled this _ transcript logEntry w2 Ho2 He Hb).
      cbn zeta. change (backend w2) with (backend w).
      change (requests w2) with (requests w).
      destruct (accepted _); cbn [fst snd]; (split; [reflexivity |]);
        (split; [reflexivity |]);
        erewrite !run_getMetrics by (cbn; apply lookup_insert_eq); reflexivity.
    + rewrite (logTranscript_unbuildable this o transcript e w Ho He Hb).
      rewrite (logTranscript_unbuildable this _ transcript e w2 Ho2 He Hb).
      cbn [fst snd]. split; [reflexivity |]. split; [reflexivity |].
      erewrite !run_getMetrics by (cbn; apply lookup_insert_eq). reflexivity.
  - rewrite (logTranscript_disabled this o transcript w Ho He).
    rewrite (logTranscript_disabled this _ transcript w2 Ho2 He).
    cbn [fst snd]. split; [reflexivity |]. split; [reflexivity |].
    rewrite (run_getMetrics this _ w Ho), (run_getMetrics this _ w2 Ho2). reflexivity.
Qed.

Lemma X11_endpoint_unused_witness :
  let w := one_logger always_204 in
  let w2 := set_store (insert 0%nat
              {| lokiEndpoint := "http://loki.example:3100";
                 serviceName := "zaralive-transcripts"; enabled := true;
                 metrics := {| transcriptEntriesTotal := 0; transcriptErrorsTotal := 0;
                               lastTranscriptTimestamp := None |} |}) w in
  requests (snd (logTranscript 0 (plain_turn 1705312200000) w2)) =
    requests (snd (logTranscript 0 (plain_turn 1705312200000) w)).
Proof.
  exact (proj1 (proj2 (X11_endpoint_unused 0 _ "http://loki.example:3100"
                         (plain_turn 1705312200000) (one_logger always_204) eq_refl))).
Defined.

End InstanceCoverage.

(** ** More on queries *)

Module QueryCoverage.
Import JSNumber JSRuntime Builder JSValue Logger Runs Results Spec Scenarios.
Import Example Coverage Effects.
Import JSNumberFacts BuilderFacts PushFacts InstanceFacts QueryFacts StatsFacts.

(** X12: the status code of the reply plays no part in a query: against a
    backend that gives the same replies under any other status code, the
    outcome is the same. *)
Theorem X12_query_ignores_status status query s e w :
  fst (searchTranscripts query s e (answering_with status w)) =
    fst (searchTranscripts query s e w).
Proof.
  pose proof (run_searchTranscripts query s e w) as H1.
  pose proof (run_searchTranscripts query s e (answering_with status w)) as H2.
  assert (Hb : forall b f,
            fst (bound_or_now b f (answering_with status w)) = fst (bound_or_now b f w) /\
            snd (bound_or_now b f (answering_with status w)) =
              answering_with status (snd (bound_or_now b f w))).
  { intros b f. unfold bound_or_now. destruct b as [x |]; [destruct (x =? 0) |]; auto. }
  destruct (Hb s (fun now => js_sub now (24 * 60 * 60 * 1000))) as (Hs1 & Hs2).
  destruct (bound_or_now s _ w) as [start w1].
  destruct (bound_or_now s _ (answering_with status w)) as [start' w1'].
  cbn [fst snd] in Hs1, Hs2. subst start' w1'.
  assert (Hb2 : fst (bound_or_now e (fun now => now) (answering_with status w1)) =
                fst (bound_or_now e (fun now => now) w1)).
  { unfold bound_or_now. destruct e as [x |]; [destruct (x =? 0) |]; auto. }
  destruct (bound_or_now e _ w1) as [end_ w2].
  destruct (bound_or_now e _ (answering_with status w1)) as [end' w2'].
  cbn [fst snd] in Hb2. subst end'.
  cbn zeta in H1, H2. rewrite H1, H2. cbn [fst answering_with backend requests].
  destruct (backend w _ _) as [message | res]; reflexivity.
Qed.

(** X13: a bound left out is taken from the clock on its own: without a
    start, the start sent is the reading of the clock minus 86400000 ms
    whatever end is given; without an end, the end sent is the reading of
    the clock.  One reading is taken in each case. *)
Theorem X13_one_bound_omitted query w :
  let now := clock w (clock_reads w) in
  (forall s e,
     omitted s -> e <> 0 ->
     Z.abs (now - 86400000) < 10 ^ 15 -> Z.abs e < 10 ^ 15 ->
     let w' := snd (searchTranscripts query s (Some e) w) in
     requests w' =
       (requests w ++
        [GET (query_path query (decimal ((now - 86400000) * 1000000))
                               (decimal (e * 1000000)))])%list /\
     clock_reads w' = S (clock_reads w)) /\
  (forall s e,
     s <> 0 -> omitted e ->
     Z.abs s < 10 ^ 15 -> Z.abs now < 10 ^ 15 ->
     let w' := snd (searchTranscripts query (Some s) e w) in
     requests w' =
       (requests w ++
        [GET (query_path query (decimal (s * 1000000))
                               (decimal (now * 1000000)))])%list /\
     clock_reads w' = S (clock_reads w)).
Proof.
  cbn zeta. split.
  - intros s e Hs He H1 H2.
    pose proof (run_searchTranscripts query s (Some e) w) as H.
    assert (Hbs : bound_or_now s (fun now => js_sub now (24 * 60 * 60 * 1000)) w =
                  (clock w (clock_reads w) - 86400000, tick w)).
    { assert (Hsub : js_sub (clock w (clock_reads w)) (24 * 60 * 60 * 1000) =
                     clock w (clock_reads w) - 86400000).
      { unfold js_sub. change (24 * 60 * 60 * 1000) with 86400000.
        apply js_round_small. unfold two53.
        change (10 ^ 15) with 1000000000000000 in H1.
        change (2 ^ 53) with 9007199254740992. lia. }
      destruct Hs as [-> | ->]; cbn [bound_or_now Z.eqb]; rewrite Hsub; reflexivity. }
    rewrite Hbs in H. unfold bound_or_now in H.
    destruct (Z.eqb_spec e 0); [contradiction |].
    cbn zeta in H. rewrite H. cbn [snd send requests tick clock_reads].
    rewrite !Number_toString_mul_million by assumption. split; reflexivity.
  - intros s e Hs He H1 H2.
    pose proof (run_searchTranscripts query (Some s) e w) as H.
    cbn [bound_or_now] in H. destruct (Z.eqb_spec s 0); [contradiction |].
    assert (Hbe : bound_or_now e (fun now => now) w = (clock w (clock_reads w), tick w)).
    { destruct He as [-> | ->]; reflexivity. }
    rewrite Hbe in H. cbn zeta in H. rewrite H. cbn [snd send requests tick clock_reads].
    rewrite !Number_toString_mul_million by assumption. split; reflexivity.
Qed.

Lemma X13_one_bound_omitted_witness :
  requests (snd (searchTranscripts session_selector None (Some 1000)
                   (fresh_world answers_42))) =
    [GET (query_path session_selector "1705225800000000000" "1000000000")].
Proof.
  refine (proj1 (proj1 (X13_one_bound_omitted session_selector (fresh_world answers_42))
                   None 1000 _ _ _ _)).
  - left; reflexivity.
  - discriminate.
  - reflexivity.
  - reflexivity.
Defined.

End QueryCoverage.

(** ** More on statistics *)

Module StatsCoverage.
Import JSNumber JSRuntime Builder JSValue Logger Runs Results Spec Scenarios.
Import Example Coverage Effects.
Import JSNumberFacts BuilderFacts PushFacts InstanceFacts QueryFacts StatsFacts.


(** The world [getTranscriptStats] leaves is the world its two queries
    leave, whatever they and the counting come to. *)
Lemma getTranscriptStats_world this o timeRange w :
  store w !! this = Some o ->
  let end_ := clock w (clock_reads w) in
  let start := window_start (window_name timeRange) end_ in
  snd (getTranscriptStats this timeRange w) =
    snd (searchTranscripts (selector (serviceName o) "zara") (Some start) (Some end_)
           (snd (searchTranscripts (selector (serviceName o) "user")
                   (Some start) (Some end_) (tick w)))).
Proof.
  intros Ho end_ start.
  unfold getTranscriptStats. fold (window_name timeRange).
  erewrite run_bind_return by reflexivity. fold end_. fold start.
  unfold try_catch.
  erewrite run_bind_return by (apply run_read_this; exact Ho).
  destruct (searchTranscripts (selector (serviceName o) "user")
              (Some start) (Some end_) (tick w)) as [ru w2] eqn:Hu.
  cbn [snd].
  destruct (searchTranscripts (selector (serviceName o) "zara")
              (Some start) (Some end_) w2) as [rz w3] eqn:Hz.
  cbn [snd].
  pose proof (run_Promise_all2 _ _ _ _ _ _ _ Hu Hz) as Hall.
  unfold bind at 1. rewrite Hall.
  destruct ru as [u | eu]; [destruct rz as [z | ez] |]; try reflexivity.
  cbv beta iota. unfold bind, lift, toISOString, ret, throw.
  destruct (message_count u); [| reflexivity].
  destruct (message_count z); [| reflexivity].
  destruct (Date_toISOString start); [| reflexivity].
  destruct (Date_toISOString end_); reflexivity.
Qed.

Lemma getTranscriptStats_sends_two this o timeRange w :
  store w !! this = Some o ->
  exists req1 req2,
    requests (snd (getTranscriptStats this timeRange w)) =
      (requests w ++ [req1; req2])%list.
Proof.
  intros Ho. rewrite (getTranscriptStats_world this o timeRange w Ho). cbn zeta.
  set (w1 := tick w).
  destruct (searchTranscripts_sends_one (selector (serviceName o) "user")
              (Some (window_start (window_name timeRange) (clock w (clock_reads w))))
              (Some (clock w (clock_reads w))) w1) as (req1 & H1 & _).
  set (w2 := snd (searchTranscripts (selector (serviceName o) "user") _ _ w1)) in *.
  destruct (searchTranscripts_sends_one (selector (serviceName o) "zara")
              (Some (window_start (window_name timeRange) (clock w (clock_reads w))))
              (Some (clock w (clock_reads w))) w2) as (req2 & H2 & _).
  exists req1, req2. rewrite H2, H1. cbn [w1 tick requests].
  rewrite <- app_assoc. reflexivity.
Qed.



(** X15: [getTranscriptStats] always sends its two queries, the second also
    when the first has failed. *)
Theorem X15_stats_sends_two this o timeRange w :
  store w !! this = Some o ->
  exists req1 req2,
    requests (snd (getTranscriptStats this timeRange w)) =
      (requests w ++ [req1; req2])%list.
Proof. apply getTranscriptStats_sends_two. Qed.

Lemma X15_stats_sends_two_witness :
  fst (getTranscriptStats 0 None (one_logger unreachable)) = Return None /\
  exists req1 req2,
    requests (snd (getTranscriptStats 0 None (one_logger unreachable))) = [req1; req2].
Proof.
  split; [reflexivity |].
  exact (X15_stats_sends_two 0 _ None (one_logger unreachable) eq_refl).
Defined.

End StatsCoverage.

(** ** Odd results, and the example *)

Module EdgeCoverage.
Import JSNumber JSRuntime Builder JSValue Logger Runs Results Spec Scenarios.
Import Example Coverage Effects.
Import JSNumberFacts BuilderFacts PushFacts InstanceFacts QueryFacts StatsFacts.
Import StatsCoverage.

(** X16: a query answered with the JSON text [null] does not fail, but the
    statistics built on it do: [getTranscriptStats] returns [null]. *)
Theorem X16_stats_null_result this o timeRange w ru rz w2 w3 :
  store w !! this = Some o ->
  let end_ := clock w (clock_reads w) in
  let start := window_start (window_name timeRange) end_ in
  searchTranscripts (selector (serviceName o) "user") (Some start) (Some end_) (tick w)
    = (ru, w2) ->
  searchTranscripts (selector (serviceName o) "zara") (Some start) (Some end_) w2
    = (rz, w3) ->
  ru = Return JNull \/ rz = Return JNull ->
  getTranscriptStats this timeRange w = (Return None, w3).
Proof.
  intros Ho end_ start Hu Hz Hnull.
  unfold getTranscriptStats. fold (window_name timeRange).
  erewrite run_bind_return by reflexivity. fold end_. fold start.
  unfold try_catch.
  erewrite run_bind_return by (apply run_read_this; exact Ho).
  pose proof (run_Promise_all2 _ _ _ _ _ _ _ Hu Hz) as Hall.
  unfold bind at 1. rewrite Hall.
  destruct ru as [u | eu]; [destruct rz as [z | ez] |]; try reflexivity.
  cbv beta iota. unfold bind, lift.
  destruct Hnull as [[= ->] | [= ->]]; [reflexivity |].
  destruct (message_count u); reflexivity.
Qed.

Lemma X16_stats_null_result_witness :
  fst (searchTranscripts (selector "zaralive-transcripts" "user")
         (Some 1705308600000) (Some 1705312200000)
         (tick (one_logger answers_null))) = Return JNull /\
  fst (getTranscriptStats 0 None (one_logger answers_null)) = Return None.
Proof.
  split; [reflexivity |].
  erewrite (X16_stats_null_result 0 _ None (one_logger answers_null)
              _ _ _ _ eq_refl eq_refl eq_refl); [reflexivity |].
  left. reflexivity.
Defined.

Lemma message_count_no_first_stream logs :
  no_first_stream logs = true ->
  message_count logs = Return (VJson (JNumber 0)).
Proof.
  destruct logs as [| | | | | props]; try discriminate; try reflexivity.
  unfold no_first_stream, message_count. cbn [get key_name].
  destruct (own_property props "data") as [[| | | | | d] |]; try discriminate;
    [| reflexivity].
  cbn [of_option]. unfold get_opt at 4. cbn [get key_name].
  destruct (own_property d "result") as [[| | | | [|] |] |]; try discriminate;
    reflexivity.
Qed.

(** X17: results in which there is no [data.result[0]] (an error object
    without [data], an empty [result], a value that is not an object) are
    counted as 0: the statistics are returned with the three counts at 0. *)
Theorem X17_stats_counts_zero this o timeRange w userLogs zaraLogs w2 w3 :
  store w !! this = Some o ->
  let end_ := clock w (clock_reads w) in
  let start := window_start (window_name timeRange) end_ in
  searchTranscripts (selector (serviceName o) "user") (Some start) (Some end_) (tick w)
    = (Return userLogs, w2) ->
  searchTranscripts (selector (serviceName o) "zara") (Some start) (Some end_) w2
    = (Return zaraLogs, w3) ->
  no_first_stream userLogs = true -> no_first_stream zaraLogs = true ->
  valid_time start = true -> valid_time end_ = true ->
  exists stats,
    getTranscriptStats this timeRange w = (Return (Some stats), w3) /\
    userMessages stats = VJson (JNumber 0) /\
    zaraMessages stats = VJson (JNumber 0) /\
    totalMessages stats = VJson (JNumber 0).
Proof.
  intros Ho end_ start Hu Hz Nu Nz Vs Ve.
  unfold getTranscriptStats. fold (window_name timeRange).
  erewrite run_bind_return by reflexivity. fold end_. fold start.
  unfold try_catch.
  erewrite run_bind_return by (apply run_read_this; exact Ho).
  erewrite run_bind_return by (apply (run_Promise_all2 _ _ _ _ _ _ _ Hu Hz)).
  cbv beta iota.
  rewrite (message_count_no_first_stream _ Nu), (message_count_no_first_stream _ Nz).
  erewrite (run_bind_return (lift _)) by reflexivity.
  erewrite (run_bind_return (lift _)) by reflexivity.
  destruct (Date_toISOString_valid _ Vs) as [isoS HS].
  destruct (Date_toISOString_valid _ Ve) as [isoE HE].
  unfold toISOString. rewrite HS, HE.
  erewrite run_bind_return by reflexivity.
  erewrite run_bind_return by reflexivity.
  eexists. split; [reflexivity |]. cbn. auto.
Qed.

Lemma X17_stats_counts_zero_witness :
  exists stats,
    fst (getTranscriptStats 0 None (one_logger answers_error_object)) =
      Return (Some stats) /\
    userMessages stats = VJson (JNumber 0) /\
    zaraMessages stats = VJson (JNumber 0) /\
    totalMessages stats = VJson (JNumber 0).
Proof.
  destruct (X17_stats_counts_zero 0 _ None (one_logger answers_error_object)
              _ _ _ _ eq_refl eq_refl eq_refl eq_refl eq_refl eq_refl eq_refl)
    as (stats & Hrun & Hc).
  exists stats. split; [rewrite Hrun; reflexivity | exact Hc].
Defined.

(** X18: the example at the end of the module never throws; it pushes one
    entry whose stamp is the seconds of the clock multiplied by [10 ^ 6],
    and asks for the statistics, with two queries, only when that push has
    been accepted. *)
Theorem X18_main w :
  let now := clock w (clock_reads w) in
  0 <= now < 10 ^ 15 ->
  exists logEntry,
    timestampNanos logEntry = Some (decimal (now / 1000 * 1000000)) /\
    fst (main w) = Return tt /\
    if accepted (backend w (length (requests w)) (push_request logEntry)) then
      exists req1 req2,
        requests (snd (main w)) =
          (requests w ++ [push_request logEntry; req1; req2])%list
    else
      requests (snd (main w)) = (requests w ++ [push_request logEntry])%list.
Proof.
  intros now Hnow.
  assert (Hq : 0 <= now / 1000 < 10 ^ 15).
  { change (10 ^ 15) with 1000000000000000 in *.
    split; [apply Z.div_pos; lia |].
    apply Z.div_lt_upper_bound; lia. }
  assert (Hv : valid_time (timestamp (exampleTranscript now)) = true).
  { apply valid_time_of_15_digits. cbn. lia. }
  destruct (prepareLogEntry_returns "zaralive-transcripts" (exampleTranscript now) Hv)
    as [logEntry Hb].
  exists logEntry. split.
  { rewrite (prepareLogEntry_timestampNanos _ _ _ Hb). f_equal.
    apply Number_toString_mul_million. cbn. lia. }
  unfold main.
  erewrite run_bind_return by reflexivity.
  erewrite run_bind_return by reflexivity.
  set (this := fresh (dom (store w))).
  set (o := {| lokiEndpoint := "http://localhost:3100";
               serviceName := "zaralive-transcripts"; enabled := true;
               metrics := {| transcriptEntriesTotal := 0; transcriptErrorsTotal := 0;
                             lastTranscriptTimestamp := None |} |}).
  set (w1 := tick (set_store (insert this o) w)).
  assert (Ho : store w1 !! this = Some o) by apply lookup_insert_eq.
  pose proof (logTranscript_enabled this o (exampleTranscript now) logEntry w1
                Ho eq_refl Hb) as Hlog.
  cbn zeta in Hlog. change (requests w1) with (requests w) in Hlog.
  change (backend w1) with (backend w) in Hlog.
  fold now. unfold try_catch.
  destruct (accepted _).
  - erewrite run_bind_return by exact Hlog.
    set (w2 := pushed_ok this o (push_request logEntry) w1).
    assert (Ho2 : store w2 !! this = Some (counted_success o (clock w1 (clock_reads w1))))
      by apply lookup_insert_eq.
    destruct (getTranscriptStats_sends_two this _ (Some "1h") w2 Ho2)
      as (req1 & req2 & Hreq).
    destruct (getTranscriptStats this (Some "1h") w2) as [[stats | e] w3] eqn:Hst;
      cbn [snd] in Hreq.
    + erewrite run_bind_return by exact Hst. cbn [ret fst snd].
      split; [reflexivity |]. exists req1, req2. rewrite Hreq. cbn.
      rewrite <- app_assoc. reflexivity.
    + erewrite run_bind_throw by exact Hst. cbn [ret fst snd].
      split; [reflexivity |]. exists req1, req2. rewrite Hreq. cbn.
      rewrite <- app_assoc. reflexivity.
  - erewrite run_bind_throw by exact Hlog. cbn. split; reflexivity.
Qed.

Lemma X18_main_witness :
  exists logEntry,
    timestampNanos logEntry = Some "1705312200000000" /\
    fst (main (fresh_world always_204)) = Return tt /\
    length (requests (snd (main (fresh_world always_204)))) = 3%nat.
Proof.
  destruct (X18_main (fresh_world always_204) ltac:(cbn; lia))
    as (logEntry & Hstamp & Hret & Hreq).
  exists logEntry. split; [exact Hstamp |]. split; [exact Hret |].
  lazymatch type of Hreq with
  | if ?c then _ else _ => change c with true in Hreq
  end.
  destruct Hreq as (req1 & req2 & ->). reflexivity.
Defined.

End EdgeCoverage.
